(** * R4DCB08 temperature collector client: register codec and device client

    A shallow embedding of [r4dcb08_cli.py] (class [R4DCB08Client]) and of
    [modbus_py.py] (its stand-alone copy of [decode_temperature]).

    - Python [int] is [Z]; Python [float] is the kernel's binary64 [float],
      whose operations are specified by [SpecFloat] through [Prim2SF].
    - Exceptions are values: a computation returns [Ok v] or [Raise e].
    - The pymodbus serial client is an external collaborator: it is a
      [transport] whose answers may depend on every call made so far, and every
      call the client makes on it is recorded, in order, in the [world]. A
      call the interpreter rejects while it binds the arguments does not reach
      the transport object and is not recorded. *)

From Stdlib Require Import ZArith List String Ascii Bool Lia.
From Stdlib Require Import Floats DecimalString.
Import ListNotations.

Local Open Scope Z_scope.

#[local] Set Warnings "-inexact-float".

(** ** The Python values and exceptions the two files use *)

Module Py.

(** The exception classes that occur: the builtin [Exception] itself, the
    builtin subclasses the interpreter raises for the operations used, and
    whatever class the transport raises (all pymodbus exceptions derive from
    [Exception], so every class here is caught by [except Exception]). *)
Inductive exc_class : Type :=
| Exception_
| ValueError
| TypeError
| OverflowError
| AttributeError
| IndexError
| ModbusException.

(** An exception object: its class and [str(e)]. *)
Record exception : Type := mkExc { exc_type : exc_class; exc_str : string }.

Inductive exc (A : Type) : Type :=
| Ok (v : A)
| Raise (e : exception).
Arguments Ok {A} v.
Arguments Raise {A} e.

Definition exc_bind {A B : Type} (x : exc A) (k : A -> exc B) : exc B :=
  match x with
  | Ok v => k v
  | Raise e => Raise e
  end.

(** [float(z)] as the interpreter converts an [int] operand of a float
    operation: correctly rounded (to nearest, ties to even), and
    [OverflowError] when the rounded value is not finite. *)
Definition float_of_int (z : Z) : exc float :=
  let f := SF2Prim (binary_normalize prec emax z 0 false) in
  if PrimFloat.is_infinity f
  then Raise (mkExc OverflowError "int too large to convert to float")
  else Ok f.

(** The integer part of a finite float [(-1)^s * m * 2^e], toward zero. *)
Definition trunc_finite (s : bool) (m : positive) (e : Z) : Z :=
  cond_Zopp s (if 0 <=? e then Z.shiftl (Zpos m) e else Z.shiftr (Zpos m) (- e)).

(** [int(x)] on a [float]: truncation toward zero; NaN and the infinities
    have no integer value. *)
Definition int_of_float (x : float) : exc Z :=
  match Prim2SF x with
  | S754_nan => Raise (mkExc ValueError "cannot convert float NaN to integer")
  | S754_infinity _ =>
      Raise (mkExc OverflowError "cannot convert float infinity to integer")
  | S754_zero _ => Ok 0
  | S754_finite s m e => Ok (trunc_finite s m e)
  end.

(** [str(z)] for an [int]. *)
Definition str_of_int (z : Z) : string := NilZero.string_of_int (Z.to_int z).

(** [x == y] on values of type [Optional[float]]: [None] equals only [None],
    floats compare as IEEE 754 says. *)
Definition opt_float_eq (x y : option float) : bool :=
  match x, y with
  | None, None => true
  | Some a, Some b => PrimFloat.eqb a b
  | _, _ => false
  end.

(** The integer nearest to the non-negative fraction [num / den], a tie going
to the even one. *)
Definition round_half_even (num den : Z) : Z :=
  let q := num / den in
  match 2 * (num mod den) ?= den with
  | Lt => q
  | Eq => if Z.even q then q else q + 1
  | Gt => q + 1
  end.

(** [format(x, ".1f")] and, with [plus], [format(x, "+.1f")]: the exact value
of the float rounded to one decimal (correctly, ties to even), the sign kept
even when the digits are all zero. *)
Definition format_1f (plus : bool) (x : float) : string :=
  let sign := fun s : bool =>
    (if s then "-" else if plus then "+" else "")%string in
  (match Prim2SF x with
  | S754_nan => sign false ++ "nan"
  | S754_infinity s => sign s ++ "inf"
  | S754_zero s => sign s ++ "0.0"
  | S754_finite s m e =>
      let tenths :=
        (if 0 <=? e then Zpos m * 2 ^ e * 10
         else round_half_even (Zpos m * 10) (2 ^ (- e)))%Z in
      sign s ++ str_of_int (tenths / 10)%Z ++ "." ++ str_of_int (tenths mod 10)%Z
  end)%string.

(** [str(xs)] for a list of [int]. *)
Definition str_of_int_list (xs : list Z) : string :=
  ("[" ++ String.concat ", " (map str_of_int xs) ++ "]")%string.

(** ["-" * n] *)
Fixpoint dashes (n : nat) : string :=
  match n with
  | O => EmptyString
  | S k => String "-" (dashes k)
  end.

(** The newline character, for literals that contain one. *)
Definition nl : string := String (ascii_of_nat 10) EmptyString.


End Py.

Import Py.

(** ** [modbus_py.py] *)

Module modbus_py.

(** [decode_temperature(raw_value)] *)
Definition decode_temperature (raw_value : Z) : exc (option float) :=
  if raw_value =? 0x8000 then Ok None
  else
    let signed_value :=
      if raw_value >? 32767 then raw_value - 65536 else raw_value in
    exc_bind (float_of_int signed_value) (fun f => Ok (Some (f / 10)%float)).

End modbus_py.

(** ** The transport boundary: pymodbus' [ModbusSerialClient] *)

Module pymodbus.

(** The serial settings a client object is built with. *)
Record ModbusSerialClient : Type := mkModbusClient {
  mc_port : string;
  mc_baudrate : Z;
  mc_parity : string;
  mc_stopbits : Z;
  mc_bytesize : Z;
  mc_timeout : float
}.

(** What a register transaction returns: [result.isError()],
    [result.registers] and [str(result)]. *)
Record pdu : Type := mkPdu {
  isError : bool;
  registers : list Z;
  pdu_str : string
}.

(** The calls the client makes on the transport object. *)
Inductive request : Type :=
| Connect (c : ModbusSerialClient)
| Close
| ReadHoldingRegisters (address count device_id : Z)
| WriteRegister (address value device_id : Z).

(** The library's behaviour. The constructor stores the settings, or raises:
    it is no call on the transport object, and nothing reaches the serial line.
    Each method answers from the calls made before it, by a value or by
    raising. *)
Record transport : Type := mkTransport {
  on_construct : ModbusSerialClient -> exc unit;
  on_connect : list request -> ModbusSerialClient -> exc bool;
  on_close : list request -> exc unit;
  on_read_holding_registers : list request -> Z -> Z -> Z -> exc pdu;
  on_write_register : list request -> Z -> Z -> Z -> exc pdu
}.

(** [read_holding_registers(self, address, *, count=1, device_id=1,
    no_response_expected=False)], as the releases that know [device_id]
    declare it: [count] is keyword-only. A call that passes the count by
    position, [read_holding_registers(address, count, device_id=...)], is
    rejected by the interpreter while it binds the arguments: the body of the
    method does not run and nothing reaches the serial line. This is the
    exception it raises. *)
Definition count_is_keyword_only : exception :=
  mkExc TypeError
    "ModbusClientMixin.read_holding_registers() takes 2 positional arguments but 3 positional arguments (and 1 keyword-only argument) were given".

End pymodbus.

Import pymodbus.

(** ** The world a client runs in, and the monad of its methods *)

Record world : Type := mkWorld {
  calls : list request;     (* every transport call so far, oldest first *)
  stdout : list string      (* every line printed so far, oldest first *)
}.

Definition M (A : Type) : Type := world -> exc A * world.

Definition ret {A : Type} (v : A) : M A := fun w => (Ok v, w).

Definition raise {A : Type} (e : exception) : M A := fun w => (Raise e, w).

Definition bind {A B : Type} (m : M A) (k : A -> M B) : M B :=
  fun w =>
    match m w with
    | (Ok v, w') => k v w'
    | (Raise e, w') => (Raise e, w')
    end.

(** [try: m  except Exception as e: h e] *)
Definition try_except {A : Type} (m : M A) (h : exception -> M A) : M A :=
  fun w =>
    match m w with
    | (Ok v, w') => (Ok v, w')
    | (Raise e, w') => h e w'
    end.

(** A pure computation that may raise. *)
Definition lift {A : Type} (x : exc A) : M A := fun w => (x, w).

Definition print (line : string) : M unit :=
  fun w => (Ok tt, mkWorld (calls w) (stdout w ++ [line])).

(** One call on the transport: it is recorded, then answered. *)
Definition transact {A : Type} (req : request) (answer : list request -> exc A) : M A :=
  fun w => (answer (calls w), mkWorld (calls w ++ [req]) (stdout w)).

(** The library's [read_holding_registers(address, *, count, device_id)] on
    a transport object, by the way the caller passes the count: by keyword the
    call is made, recorded and answered; by position it is rejected
    ([count_is_keyword_only]) before the transport is reached. *)
Definition read_holding_registers (bus : transport) (count_by_keyword : bool)
    (address count device_id : Z) : M pdu :=
  if count_by_keyword
  then transact (ReadHoldingRegisters address count device_id)
                (fun log => on_read_holding_registers bus log address count device_id)
  else raise count_is_keyword_only.

Declare Scope py_scope.
Delimit Scope py_scope with py.
Notation "x <- m ;; k" := (bind m (fun x => k))
  (at level 61, m at next level, right associativity) : py_scope.
Notation "m ;; k" := (bind m (fun _ => k))
  (at level 61, right associativity) : py_scope.

(** [[f(x) for x in xs]] where [f] may raise: left to right, all or nothing. *)
Fixpoint comprehension {A B : Type} (f : A -> M B) (xs : list A) : M (list B) :=
  match xs with
  | [] => ret []
  | x :: rest =>
      (y <- f x ;;
       ys <- comprehension f rest ;;
       ret (y :: ys))%py
  end.

(** [try: m  finally: f]: [f] runs whatever [m] did; what [f] raises replaces
the outcome of [m]. *)
Definition try_finally {A : Type} (m : M A) (f : M unit) : M A :=
  fun w =>
    let (r, w') := m w in
    match f w' with
    | (Ok _, w'') => (r, w'')
    | (Raise e, w'') => (Raise e, w'')
    end.

(** [for i, x in enumerate(xs): body], counting from [i]. *)
Fixpoint for_enumerate {A : Type} (body : Z -> A -> M unit) (i : Z) (xs : list A)
  : M unit :=
  match xs with
  | [] => ret tt
  | x :: rest => (body i x ;; for_enumerate body (i + 1) rest)%py
  end.

(** [for line in lines: print(line)] *)
Fixpoint print_lines (lines : list string) : M unit :=
  match lines with
  | [] => ret tt
  | line :: rest => (print line ;; print_lines rest)%py
  end.

(** ** [r4dcb08_cli.py]: class [R4DCB08Client] *)

Module r4dcb08_cli.

Local Open Scope py_scope.

Section Client.

(** The serial line and the device behind it. *)
Variable bus : transport.

(** The instance attributes. [client] is [None] until [connect] has built
    the transport object. *)
Record R4DCB08Client : Type := mkClient {
  port : string;
  address : Z;
  baudrate : Z;
  timeout : float;
  client : option ModbusSerialClient
}.

(** [__init__(self, port, address=1, baudrate=9600, timeout=1.0)] *)
Definition __init__ (port : string) (address baudrate : Z) (timeout : float)
  : R4DCB08Client :=
  mkClient port address baudrate timeout None.

(** Method calls on [self.client]; on [None] the attribute lookup already
    fails, before anything reaches the transport. *)
Definition client_connect (c : option ModbusSerialClient) : M bool :=
  match c with
  | None => raise (mkExc AttributeError
                     "'NoneType' object has no attribute 'connect'")
  | Some h => transact (Connect h) (fun log => on_connect bus log h)
  end.

(** [self.client.read_holding_registers(addr, count, device_id=device_id)]:
    the three reads of the class pass the count by position. *)
Definition client_read_holding_registers (c : option ModbusSerialClient)
    (addr count device_id : Z) : M pdu :=
  match c with
  | None => raise (mkExc AttributeError
                     "'NoneType' object has no attribute 'read_holding_registers'")
  | Some _ => read_holding_registers bus false addr count device_id
  end.

Definition client_write_register (c : option ModbusSerialClient)
    (addr value device_id : Z) : M pdu :=
  match c with
  | None => raise (mkExc AttributeError
                     "'NoneType' object has no attribute 'write_register'")
  | Some _ =>
      transact (WriteRegister addr value device_id)
               (fun log => on_write_register bus log addr value device_id)
  end.

(** [connect(self)]: returns the answer and the updated instance. The
    constructor and [connect()] are the two statements of one [try];
    [self.client] is assigned once the constructor has returned. The handler
    is the same for both, but the instance it leaves is not: as it was when
    the constructor raised, holding the object when [connect()] raised. So the
    [try] is written once per statement. *)
Definition connect (self : R4DCB08Client) : M (bool * R4DCB08Client) :=
  let h := mkModbusClient (port self) (baudrate self) "N" 1 8 (timeout self) in
  let self' :=
    mkClient (port self) (address self) (baudrate self) (timeout self) (Some h) in
  try_except
    (lift (on_construct bus h) ;;
     try_except
       (ok <- client_connect (client self') ;;
        ret (ok, self'))
       (fun e =>
          print ("Connection error: " ++ exc_str e) ;;
          ret (false, self')))
    (fun e =>
       print ("Connection error: " ++ exc_str e) ;;
       ret (false, self)).

(** [disconnect(self)] *)
Definition disconnect (self : R4DCB08Client) : M unit :=
  match client self with
  | Some _ => transact Close (on_close bus)
  | None => ret tt
  end.

(** [decode_temperature(raw_value)] (static) *)
Definition decode_temperature (raw_value : Z) : exc (option float) :=
  if raw_value =? 0x8000 then Ok None
  else
    let signed_value :=
      if raw_value >? 32767 then raw_value - 65536 else raw_value in
    exc_bind (float_of_int signed_value) (fun f => Ok (Some (f / 10)%float)).

(** [encode_temperature(temperature)] (static) *)
Definition encode_temperature (temperature : float) : exc Z :=
  exc_bind (int_of_float (temperature * 10)%float) (fun raw_value =>
  Ok (if raw_value <? 0 then raw_value + 65536 else raw_value)).

(** [read_all_temperatures(self)] *)
Definition read_all_temperatures (self : R4DCB08Client) : M (list (option float)) :=
  try_except
    (result <- client_read_holding_registers (client self) 0 8 (address self) ;;
     if isError result
     then raise (mkExc Exception_ ("Modbus error: " ++ pdu_str result))
     else comprehension (fun raw => lift (decode_temperature raw)) (registers result))
    (fun e => raise (mkExc Exception_ ("Failed to read temperatures: " ++ exc_str e))).

(** [read_single_temperature(self, channel)] *)
Definition read_single_temperature (self : R4DCB08Client) (channel : Z)
  : M (option float) :=
  if negb ((0 <=? channel) && (channel <=? 7))
  then raise (mkExc ValueError "Channel must be 0-7")
  else
    try_except
      (result <- client_read_holding_registers (client self) channel 1 (address self) ;;
       if isError result
       then raise (mkExc Exception_ ("Modbus error: " ++ pdu_str result))
       else
         match registers result with
         | raw :: _ => lift (decode_temperature raw)
         | [] => raise (mkExc IndexError "list index out of range")
         end)
      (fun e => raise (mkExc Exception_
                         ("Failed to read temperature from channel "
                            ++ str_of_int channel ++ ": " ++ exc_str e))).

(** [set_temperature_correction(self, channel, correction)] *)
Definition set_temperature_correction (self : R4DCB08Client) (channel : Z)
    (correction : float) : M unit :=
  if negb ((0 <=? channel) && (channel <=? 7))
  then raise (mkExc ValueError "Channel must be 0-7")
  else if negb ((- 327.6 <=? correction)%float && (correction <=? 327.6)%float)
  then raise (mkExc ValueError "Correction must be between -327.6 and +327.6 °C")
  else
    try_except
      (raw_correction <- lift (encode_temperature correction) ;;
       let correction_register := 0x0008 + channel in
       result <- client_write_register (client self) correction_register
                   raw_correction (address self) ;;
       if isError result
       then raise (mkExc Exception_ ("Modbus error: " ++ pdu_str result))
       else ret tt)
      (fun e => raise (mkExc Exception_
                         ("Failed to set correction for channel "
                            ++ str_of_int channel ++ ": " ++ exc_str e))).

(** [read_temperature_corrections(self)] *)
Definition read_temperature_corrections (self : R4DCB08Client)
  : M (list (option float)) :=
  try_except
    (result <- client_read_holding_registers (client self) 0x0008 8 (address self) ;;
     if isError result
     then raise (mkExc Exception_ ("Modbus error: " ++ pdu_str result))
     else comprehension (fun raw => lift (decode_temperature raw)) (registers result))
    (fun e => raise (mkExc Exception_
                       ("Failed to read temperature corrections: " ++ exc_str e))).

(** *** The command functions of the module *)

(** [cmd_read_all(client)] *)
Definition cmd_read_all (client : R4DCB08Client) : M Z :=
  try_except
    (temperatures <- read_all_temperatures client ;;
     print "R4DCB08 Temperature Readings:" ;;
     print (dashes 35) ;;
     for_enumerate
       (fun i temp =>
          match temp with
          | Some t => print ("Channel " ++ str_of_int i ++ ": "
                               ++ format_1f false t ++ "°C")
          | None => print ("Channel " ++ str_of_int i ++ ": No sensor")
          end) 0 temperatures ;;
     ret 0)
    (fun e => print ("Error: " ++ exc_str e) ;; ret 1).

(** [cmd_read_channel(client, channel)] *)
Definition cmd_read_channel (client : R4DCB08Client) (channel : Z) : M Z :=
  try_except
    (temperature <- read_single_temperature client channel ;;
     match temperature with
     | Some t => print ("Channel " ++ str_of_int channel ++ ": "
                          ++ format_1f false t ++ "°C")
     | None => print ("Channel " ++ str_of_int channel ++ ": No sensor connected")
     end ;;
     ret 0)
    (fun e => print ("Error: " ++ exc_str e) ;; ret 1).

(** [cmd_set_correction(client, channel, correction)] *)
Definition cmd_set_correction (client : R4DCB08Client) (channel : Z)
    (correction : float) : M Z :=
  try_except
    (set_temperature_correction client channel correction ;;
     print ("Successfully set correction for channel " ++ str_of_int channel
              ++ " to " ++ format_1f true correction ++ "°C") ;;
     print "Note: The correction will be applied to future temperature readings." ;;
     ret 0)
    (fun e => print ("Error: " ++ exc_str e) ;; ret 1).

(** [cmd_read_corrections(client)] *)
Definition cmd_read_corrections (client : R4DCB08Client) : M Z :=
  try_except
    (corrections <- read_temperature_corrections client ;;
     print "Temperature Correction Values:" ;;
     print (dashes 35) ;;
     for_enumerate
       (fun i correction =>
          match correction with
          | Some c => print ("Channel " ++ str_of_int i ++ ": "
                               ++ format_1f true c ++ "°C")
          | None => print ("Channel " ++ str_of_int i ++ ": No correction")
          end) 0 corrections ;;
     ret 0)
    (fun e => print ("Error: " ++ exc_str e) ;; ret 1).

(** What [parser.parse_args()] hands to [main]: the connection options, the
name of the command ([None] when none was given) and the arguments of the
command (read only by the commands that have them). *)
Record Namespace : Type := mkNamespace {
  args_port : string;
  args_address : Z;
  args_baudrate : Z;
  args_timeout : float;
  args_command : option string;
  args_channel : Z;
  args_correction : float
}.

(** [main()], from the parsed arguments on; [help] is what
[parser.print_help()] prints. Returns the exit code. *)
Definition main (help : string) (args : Namespace) : M Z :=
  match args_command args with
  | None => print help ;; ret 1
  | Some command =>
      if String.eqb command "" then print help ;; ret 1
      else if negb ((1 <=? args_address args) && (args_address args <=? 247))
      then print "Error: Device address must be between 1 and 247" ;; ret 1
      else
        let client := __init__ (args_port args) (args_address args)
                               (args_baudrate args) (args_timeout args) in
        connected <- connect client ;;
        let (ok, client) := connected : bool * R4DCB08Client in
        if negb ok
        then
          print_lines
            [("Error: Failed to connect to R4DCB08 at " ++ args_port args)%string;
             "Troubleshooting:"%string;
             "1. Check that the device is powered and connected"%string;
             "2. Verify the serial port path is correct"%string;
             "3. Ensure no other program is using the serial port"%string;
             "4. Check device address and baud rate settings"%string] ;;
          ret 1
        else
          try_finally
            (if String.eqb command "read-all" then cmd_read_all client
             else if String.eqb command "read-channel"
             then cmd_read_channel client (args_channel args)
             else if String.eqb command "set-correction"
             then cmd_set_correction client (args_channel args)
                                     (args_correction args)
             else if String.eqb command "read-corrections"
             then cmd_read_corrections client
             else print ("Unknown command: " ++ command) ;; ret 1)
            (disconnect client)
  end.

End Client.

End r4dcb08_cli.

(** ** [modbus_py.py]: the example script *)

Module modbus_py_script.

Local Open Scope py_scope.

Section Script.

Variable bus : transport.

(** [main()] of [modbus_py.py]; the transport object is built first, outside
every [try], with the serial settings of the device's data sheet. *)
Definition main : M unit :=
  let client :=
    mkModbusClient "/dev/tty.usbserial-A10N5MZK" 9600 "N" 1 8 1 in
  lift (on_construct bus client) ;;
  connected <- transact (Connect client) (fun log => on_connect bus log client) ;;
  if negb connected
  then
    print_lines
      ["Failed to connect to R4DCB08 device!"%string;
       "Check:"%string;
       "1. Device is powered and connected"%string;
       "2. Serial port path is correct"%string;
       "3. No other program is using the port"%string]
  else
    print "Connected to R4DCB08 Temperature Collector" ;;
    try_finally
      (try_except
         (let device_address := 1 in
          result <- read_holding_registers bus true 0 8 device_address ;;
          if isError result
          then print ("Error reading from device: " ++ pdu_str result)
          else
            print (nl ++ "R4DCB08 Temperature Readings:") ;;
            print (dashes 35) ;;
            for_enumerate
              (fun i raw_temp =>
                 temperature <- lift (modbus_py.decode_temperature raw_temp) ;;
                 match temperature with
                 | Some t => print ("Channel " ++ str_of_int i ++ ": "
                                      ++ format_1f false t ++ "Â°C")
                 | None => print ("Channel " ++ str_of_int i ++ ": No sensor")
                 end) 0 (registers result) ;;
            print (nl ++ "Raw register values: "
                      ++ str_of_int_list (registers result)))
         (fun e => print ("Communication error: " ++ exc_str e)))
      (transact Close (on_close bus) ;;
       print (nl ++ "Disconnected from device.")).

End Script.

End modbus_py_script.

Import r4dcb08_cli.

(** ** Vocabulary of the statements *)

(** The float that is exactly the integer [z] (for [|z| < 2^53]), through the
    primitive conversion from machine integers. *)
Definition exact_float (z : Z) : float :=
  if z <? 0 then (- of_uint63 (Uint63.of_Z (- z)))%float
  else of_uint63 (Uint63.of_Z z).

(** A 16-bit register value. *)
Definition is_register (raw : Z) : Prop := 0 <= raw <= 65535.

(** The integers [lo, lo+1, ..., lo+n-1]. *)
Fixpoint zrange (lo : Z) (n : nat) : list Z :=
  match n with
  | O => []
  | S k => lo :: zrange (lo + 1) k
  end.

(** Identity of decoded values, decided. *)
Definition same_decoded (x y : exc (option float)) : bool :=
  match x, y with
  | Ok None, Ok None => true
  | Ok (Some a), Ok (Some b) => PrimFloat.Leibniz.eqb a b
  | _, _ => false
  end.

Definition same_encoded (x : exc Z) (z : Z) : bool :=
  match x with
  | Ok r => r =? z
  | Raise _ => false
  end.

(** [raw_value - 65536] above 32767, [raw_value] itself otherwise. *)
Definition signed16 (raw : Z) : Z := if raw >? 32767 then raw - 65536 else raw.

(** The three failure kinds of the specification, and a failure of a given
    kind under a reading [kind_of] of the exception classes. *)
Inductive failure_kind : Type := InvalidArgument | NotConnected | TransportError.

Definition fails_with {A : Type} (kind_of : exc_class -> failure_kind)
    (k : failure_kind) (outcome : exc A * world) : Prop :=
  exists e, fst outcome = Raise e /\ kind_of (exc_type e) = k.

(** ** Scenarios *)

Definition empty_world : world := mkWorld [] [].

(** A transport whose object can be built and that answers every call the
    same way. *)
Definition constant_bus (connected : bool) (answer : exc pdu) : transport :=
  mkTransport (fun _ => Ok tt) (fun _ _ => Ok connected) (fun _ => Ok tt)
              (fun _ _ _ _ => answer) (fun _ _ _ _ => answer).

(** Scenario A: the device reports 25.0 degrees, no sensor, -5.0 degrees and
    five times 0.0 degrees. *)
Definition bus_A : transport :=
  constant_bus true
    (Ok (mkPdu false [250; 32768; 65486; 0; 0; 0; 0; 0] "ReadHoldingRegistersResponse")).

(** A device that acknowledges. *)
Definition bus_ack : transport :=
  constant_bus true (Ok (mkPdu false [15] "WriteSingleRegisterResponse")).

(** A device that answers every transaction with an exception response. *)
Definition bus_error : transport :=
  constant_bus true (Ok (mkPdu true [] "ExceptionResponse")).

(** A serial port that cannot be opened. *)
Definition bus_refusing : transport :=
  constant_bus false
    (Raise (mkExc ModbusException "Modbus Error: [Connection] Failed to connect")).

(** The instance [main] builds with the default settings, before [connect]. *)
Definition fresh_client : R4DCB08Client := __init__ "/dev/ttyUSB0" 1 9600 1.

(** The same instance once [connect] has built its transport object. *)
Definition connected_client : R4DCB08Client :=
  mkClient "/dev/ttyUSB0" 1 9600 1
           (Some (mkModbusClient "/dev/ttyUSB0" 9600 "N" 1 8 1)).

(** What the read of an instance fails with, [str(e)] of the exception the
    [except] clause of the operation catches: the rejection of the call when
    the instance holds a transport object, the failed attribute lookup on
    [None] when it holds none. *)
Definition read_rejection (self : R4DCB08Client) : string :=
  match client self with
  | Some _ => exc_str count_is_keyword_only
  | None => "'NoneType' object has no attribute 'read_holding_registers'"
  end.

(** *** Vocabulary of the command-line statements *)

(** A signed count of tenths written with one decimal, as the device means
it; with [plus], a [+] before what is not negative. *)
Definition tenths_text (plus : bool) (z : Z) : string :=
  ((if (z <? 0)%Z then "-" else if plus then "+" else "")
     ++ str_of_int (Z.abs z / 10)%Z ++ "." ++ str_of_int (Z.abs z mod 10)%Z)%string.

(** The lines a loop over [enumerate(xs)] prints, one per element. *)
Fixpoint enumerate_lines {A : Type} (line : Z -> A -> string) (i : Z) (xs : list A)
  : list string :=
  match xs with
  | [] => []
  | x :: rest => line i x :: enumerate_lines line (i + 1) rest
  end.

(** The line of channel [i] in the listings, from the register value. *)
Definition reading_line (plus : bool) (absent unit : string) (i raw : Z) : string :=
  ("Channel " ++ str_of_int i ++ ": "
     ++ (if (raw =? 0x8000)%Z then absent
         else tenths_text plus (signed16 raw) ++ unit))%string.

(** The line of channel [i] in the listings, from the decoded value. *)
Definition value_line (plus : bool) (absent unit : string) (i : Z)
    (value : option float) : string :=
  ("Channel " ++ str_of_int i ++ ": "
     ++ match value with
        | Some t => format_1f plus t ++ unit
        | None => absent
        end)%string.

(** Whether an outcome is an exception. *)
Definition raised {A : Type} (r : exc A) : bool :=
  match r with
  | Ok _ => false
  | Raise _ => true
  end.

(** The world after one more transport call. *)
Definition after_call (w : world) (req : request) : world :=
  mkWorld (calls w ++ [req]) (stdout w).

(** The world after more printed lines. *)
Definition after_print (w : world) (lines : list string) : world :=
  mkWorld (calls w) (stdout w ++ lines).

(** The transport object [connect] builds for an instance. *)
Definition transport_object (self : R4DCB08Client) : ModbusSerialClient :=
  mkModbusClient (port self) (baudrate self) "N" 1 8 (timeout self).

(** The tenths a float prints with one decimal, and its sign: what
[format_1f] writes, before it is written. *)
Definition tenths_of (x : float) : option (bool * Z) :=
  match Prim2SF x with
  | S754_zero s => Some (s, 0)
  | S754_finite s m e =>
      Some (s, if 0 <=? e then Zpos m * 2 ^ e * 10
               else round_half_even (Zpos m * 10) (2 ^ (- e)))
  | _ => None
  end.

(** A register transaction, as opposed to opening and closing the port. *)
Definition is_transaction (req : request) : Prop :=
  match req with
  | ReadHoldingRegisters _ _ _ | WriteRegister _ _ _ => True
  | Connect _ | Close => False
  end.

(** From [w] to [w'] at most one transport call was made, a register
transaction, and nothing was printed. *)
Definition one_transaction_at_most (w w' : world) : Prop :=
  (exists made, calls w' = calls w ++ made /\
                (List.length made <= 1)%nat /\ Forall is_transaction made) /\
  stdout w' = stdout w.

(** What a command function may do from [w] on: answer 0 or 1, make at most
one register transaction, and print. *)
Definition command_outcome (w : world) (outcome : exc Z * world) : Prop :=
  (fst outcome = Ok 0 \/ fst outcome = Ok 1) /\
  (exists made, calls (snd outcome) = calls w ++ made /\
                (List.length made <= 1)%nat /\ Forall is_transaction made) /\
  (exists lines, stdout (snd outcome) = stdout w ++ lines).

(** The transport object [main] has [connect] build from the arguments. *)
Definition main_transport_object (args : Namespace) : ModbusSerialClient :=
  mkModbusClient (args_port args) (args_baudrate args) "N" 1 8 (args_timeout args).

(** What [main] prints when [connect] answers [False]. *)
Definition connect_failure_lines (args : Namespace) : list string :=
  [("Error: Failed to connect to R4DCB08 at " ++ args_port args)%string;
   "Troubleshooting:"%string;
   "1. Check that the device is powered and connected"%string;
   "2. Verify the serial port path is correct"%string;
   "3. Ensure no other program is using the serial port"%string;
   "4. Check device address and baud rate settings"%string].

(** A computation that, from any world, only prints. *)
Definition prints_only {A : Type} (m : M A) : Prop :=
  forall w, exists lines, snd (m w) = after_print w lines.

(** The transport object [modbus_py.py] builds. *)
Definition script_transport_object : ModbusSerialClient :=
  mkModbusClient "/dev/tty.usbserial-A10N5MZK" 9600 "N" 1 8 1.

(** A command function reports on its operation: it answers 1 when the
operation raised and 0 otherwise, makes the transport calls of the operation
and no other, and after a failure has printed one more line, the error. *)
Definition reports {A : Type} (command : exc Z * world)
    (operation : exc A * world) : Prop :=
  fst command = Ok (if raised (fst operation) then 1 else 0) /\
  calls (snd command) = calls (snd operation) /\
  (forall e, fst operation = Raise e ->
     stdout (snd command) =
       stdout (snd operation) ++ [("Error: " ++ exc_str e)%string]).

(** The arguments of [r4dcb08_cli.py --port /dev/ttyUSB0 read-all]. *)
Definition args_read_all : Namespace :=
  mkNamespace "/dev/ttyUSB0" 1 9600 1 (Some "read-all"%string) 0 0.

(** The same with [--address 248]. *)
Definition args_bad_address : Namespace :=
  mkNamespace "/dev/ttyUSB0" 248 9600 1 (Some "read-all"%string) 0 0.

(** The answer of scenario A. *)
Definition pdu_A : pdu :=
  mkPdu false [250; 32768; 65486; 0; 0; 0; 0; 0] "ReadHoldingRegistersResponse".

(** * Properties *)

(** ** Binary64 rounding: how far a rounded mantissa can grow

    [SpecFloat] gives the operations; the facts below bound the magnitude
    [digits + exponent] of what [binary_round_aux] returns. *)

Lemma digits2_pos_log2 (p : positive) : Zpos (digits2_pos p) = Z.log2 (Zpos p) + 1.
Proof.
  induction p as [p IH | p IH | ]; simpl digits2_pos; try reflexivity.
  - rewrite Pos2Z.inj_succ, IH.
    rewrite (Pos2Z.inj_xI p), Z.log2_succ_double by lia. lia.
  - rewrite Pos2Z.inj_succ, IH.
    rewrite (Pos2Z.inj_xO p), Z.log2_double by lia. lia.
Qed.

Lemma Zdigits2_log2 (m : Z) : 0 < m -> Zdigits2 m = Z.log2 m + 1.
Proof. destruct m; try lia. intros _. apply digits2_pos_log2. Qed.

Lemma Zdigits2_nonneg (m : Z) : 0 <= Zdigits2 m.
Proof. destruct m; simpl; lia. Qed.

Lemma Zdigits2_succ (m : Z) : 0 <= m -> Zdigits2 (m + 1) <= Zdigits2 m + 1.
Proof.
  intros H. destruct (Z.eq_dec m 0) as [-> | Hm]; [simpl; lia |].
  rewrite !Zdigits2_log2 by lia.
  pose proof (Z.log2_succ_le m). unfold Z.succ in *. lia.
Qed.

Lemma Zdigits2_mul (a b : positive) :
  Zpos (digits2_pos (a * b)) <= Zpos (digits2_pos a) + Zpos (digits2_pos b).
Proof.
  rewrite !digits2_pos_log2, Pos2Z.inj_mul.
  pose proof (Z.log2_mul_above (Zpos a) (Zpos b)). lia.
Qed.

Lemma shr_1_digits (r : shr_record) :
  0 <= shr_m r ->
  0 <= shr_m (shr_1 r) /\
  Zdigits2 (shr_m (shr_1 r)) = Z.max 0 (Zdigits2 (shr_m r) - 1).
Proof.
  destruct r as [m rb sb]. simpl shr_m at 1.
  destruct m as [ | [p | p | ] | p ]; intros H;
    cbn [shr_1 shr_m Zdigits2 digits2_pos]; rewrite ?Pos2Z.inj_succ; lia.
Qed.

Lemma iter_shr_1_digits (p : positive) : forall r : shr_record,
  0 <= shr_m r ->
  0 <= shr_m (iter_pos shr_1 p r) /\
  Zdigits2 (shr_m (iter_pos shr_1 p r)) = Z.max 0 (Zdigits2 (shr_m r) - Zpos p).
Proof.
  induction p as [p IH | p IH | ]; intros r H; simpl iter_pos.
  - destruct (shr_1_digits r H) as [H1 E1].
    destruct (IH _ H1) as [H2 E2].
    destruct (IH _ H2) as [H3 E3].
    split; [assumption |]. rewrite E3, E2, E1. lia.
  - destruct (IH _ H) as [H2 E2].
    destruct (IH _ H2) as [H3 E3].
    split; [assumption |]. rewrite E3, E2. lia.
  - apply shr_1_digits, H.
Qed.

Lemma fexp_binary64 (d : Z) : fexp prec emax d = Z.max (d - 53) (-1074).
Proof. reflexivity. Qed.

Lemma shr_record_of_loc_m (m : Z) (l : location) : shr_m (shr_record_of_loc m l) = m.
Proof. destruct l as [ | [ | | ] ]; reflexivity. Qed.

(** One alignment step: the mantissa stays non-negative, the exponent becomes
    the larger of [e] and the format's exponent for that magnitude, and the
    magnitude [digits + exponent] does not grow beyond the smallest one of the
    format. *)
Lemma shr_fexp_magnitude (m e : Z) (l : location) :
  0 <= m ->
  let '(r, e') := shr_fexp prec emax m e l in
  0 <= shr_m r /\
  e' = Z.max e (fexp prec emax (Zdigits2 m + e)) /\
  Zdigits2 (shr_m r) + e' <= Z.max (Zdigits2 m + e) (-1074).
Proof.
  intros Hm. unfold shr_fexp, shr.
  pose proof (Zdigits2_nonneg m) as Hd.
  rewrite fexp_binary64.
  destruct (Z.max (Zdigits2 m + e - 53) (-1074) - e) as [ | n | n ] eqn:En;
    rewrite ?shr_record_of_loc_m.
  - repeat split; lia.
  - destruct (iter_shr_1_digits n (shr_record_of_loc m l)) as [H1 E1];
      [rewrite shr_record_of_loc_m; exact Hm |].
    rewrite shr_record_of_loc_m in E1.
    repeat split; [exact H1 | lia | rewrite E1; lia].
  - repeat split; lia.
Qed.

Lemma round_nearest_even_bounds (m : Z) (l : location) :
  0 <= m ->
  0 <= round_nearest_even m l /\
  Zdigits2 (round_nearest_even m l) <= Zdigits2 m + 1.
Proof.
  intros Hm. pose proof (Zdigits2_succ m Hm) as Hs.
  unfold round_nearest_even.
  destruct l as [ | [ | | ] ]; try destruct (Z.even m); split; lia.
Qed.

(** Rounding a non-negative mantissa: when the magnitude [digits + exponent]
    is at most [K], the result is a zero or a finite float of the same sign
    whose magnitude is at most [K + 1]; it never overflows as long as the
    exponents stay below the format's largest. *)
Lemma binary_round_aux_magnitude (sx : bool) (mx ex : Z) (lx : location) (K : Z) :
  0 <= mx ->
  Zdigits2 mx + ex <= K -> -1074 <= K -> K <= 1023 -> ex <= 971 ->
  binary_round_aux prec emax sx mx ex lx = S754_zero sx \/
  exists m e,
    binary_round_aux prec emax sx mx ex lx = S754_finite sx m e /\
    Zpos (digits2_pos m) + e <= K + 1.
Proof.
  intros Hm HK Hlo Hhi Hex. unfold binary_round_aux.
  pose proof (shr_fexp_magnitude mx ex lx Hm) as H1.
  destruct (shr_fexp prec emax mx ex lx) as [r1 e1].
  destruct H1 as (Hr1 & He1 & Hd1).
  destruct (round_nearest_even_bounds (shr_m r1) (loc_of_shr_record r1) Hr1)
    as [Hr2 Hd2].
  set (m2 := round_nearest_even (shr_m r1) (loc_of_shr_record r1)) in *.
  pose proof (shr_fexp_magnitude m2 e1 loc_Exact Hr2) as H3.
  destruct (shr_fexp prec emax m2 e1 loc_Exact) as [r3 e3].
  destruct H3 as (Hr3 & He3 & Hd3).
  rewrite fexp_binary64 in He1, He3.
  pose proof (Zdigits2_nonneg mx). pose proof (Zdigits2_nonneg m2).
  pose proof (Zdigits2_nonneg (shr_m r1)).
  destruct (shr_m r3) as [ | m3 | m3 ] eqn:Em3; [left; reflexivity | | lia].
  right. exists m3, e3.
  assert (e3 <= 971) as Hle by lia.
  apply Z.leb_le in Hle. change (emax - prec) with 971. rewrite Hle.
  split; [reflexivity |].
  cbn [Zdigits2] in Hd3. lia.
Qed.

(** ** [int(x)] and the correction range *)

Lemma trunc_finite_bound (s : bool) (m : positive) (e K : Z) :
  0 <= K -> Zpos (digits2_pos m) + e <= K ->
  - 2 ^ K < trunc_finite s m e < 2 ^ K.
Proof.
  intros HK Hd. rewrite digits2_pos_log2 in Hd.
  assert (0 <= (if 0 <=? e then Z.shiftl (Zpos m) e else Z.shiftr (Zpos m) (- e)) < 2 ^ K)
    as Hb.
  { pose proof (Z.log2_nonneg (Zpos m)) as Hl.
    assert (Zpos m < 2 ^ (Z.log2 (Zpos m) + 1)) as Hm
      by (apply Z.log2_spec; lia).
    destruct (Z.leb_spec 0 e) as [He | He].
    - rewrite Z.shiftl_mul_pow2 by lia. split; [lia |].
      apply Z.lt_le_trans with (2 ^ (Z.log2 (Zpos m) + 1) * 2 ^ e).
      + apply Z.mul_lt_mono_pos_r; [apply Z.pow_pos_nonneg; lia | exact Hm].
      + rewrite <- Z.pow_add_r by lia. apply Z.pow_le_mono_r; lia.
    - rewrite Z.shiftr_div_pow2 by lia.
      assert (0 < 2 ^ (- e)) as Hp by (apply Z.pow_pos_nonneg; lia).
      split; [apply Z.div_pos; lia |].
      apply Z.div_lt_upper_bound; [exact Hp |].
      apply Z.lt_le_trans with (1 := Hm).
      rewrite <- Z.pow_add_r by lia. apply Z.pow_le_mono_r; lia. }
  unfold trunc_finite. destruct s; simpl cond_Zopp; lia.
Qed.

(** What passes the range test of [set_temperature_correction] is a zero or a
    finite float below [2^9] in magnitude. *)
Lemma in_correction_range_shape (v : float) :
  (- 327.6 <=? v)%float = true -> (v <=? 327.6)%float = true ->
  (exists s, Prim2SF v = S754_zero s) \/
  (exists s m e, Prim2SF v = S754_finite s m e /\
                 Zpos (digits2_pos m) <= 53 /\ e <= -44).
Proof.
  rewrite !leb_spec. intros Hlo Hhi.
  pose proof (Prim2SF_valid v) as Hv.
  change (Prim2SF (- 327.6)) with (S754_finite true 5763200148150682 (-44)) in Hlo.
  change (Prim2SF 327.6) with (S754_finite false 5763200148150682 (-44)) in Hhi.
  destruct (Prim2SF v) as [s | s | | s m e].
  - left. exists s. reflexivity.
  - destruct s; discriminate.
  - discriminate.
  - right. exists s, m, e. split; [reflexivity |].
    cbn [valid_binary] in Hv. unfold bounded, canonical_mantissa in Hv.
    apply andb_prop in Hv. destruct Hv as [Hc _].
    apply Z.eqb_eq in Hc. rewrite fexp_binary64 in Hc.
    split; [lia |].
    unfold SFleb, SFcompare in Hlo, Hhi.
    destruct s.
    + destruct (Z.compare_spec (-44) e); [lia | discriminate | lia].
    + destruct (Z.compare_spec e (-44)); [lia | lia | discriminate].
Qed.

(** In the correction range [int(correction * 10)] is defined and small. *)
Lemma int_of_scaled_correction (v : float) :
  (- 327.6 <=? v)%float = true -> (v <=? 327.6)%float = true ->
  exists raw_value, int_of_float (v * 10)%float = Ok raw_value /\
                    - 2 ^ 14 < raw_value < 2 ^ 14.
Proof.
  intros Hlo Hhi. unfold int_of_float. rewrite mul_spec.
  change (Prim2SF 10) with (S754_finite false 5629499534213120 (-49)).
  destruct (in_correction_range_shape v Hlo Hhi)
    as [[s ->] | (s & m & e & -> & Hd & He)].
  - exists 0. split; [reflexivity | lia].
  - unfold SF64mul, SFmul.
    pose proof (Zdigits2_mul m 5629499534213120) as Hmul.
    change (Zpos (digits2_pos 5629499534213120)) with 53 in Hmul.
    destruct (binary_round_aux_magnitude (xorb s false)
                (Zpos (m * 5629499534213120)) (e + -49) loc_Exact 13)
      as [-> | (m' & e' & -> & Hd')]; cbn [Zdigits2]; try lia.
    + exists 0. split; [reflexivity | lia].
    + exists (trunc_finite (xorb s false) m' e'). split; [reflexivity |].
      apply trunc_finite_bound; lia.
Qed.

(** ** Checking a property on every integer of a range *)

Lemma zrange_forallb (P : Z -> bool) (n : nat) : forall lo : Z,
  forallb P (zrange lo n) = true ->
  forall z, lo <= z < lo + Z.of_nat n -> P z = true.
Proof.
  induction n as [ | n IH]; intros lo Hall z Hz; [lia |].
  cbn [zrange forallb] in Hall. apply andb_prop in Hall.
  destruct Hall as [Hlo Hrest].
  destruct (Z.eq_dec z lo) as [-> | Hne]; [exact Hlo |].
  apply (IH (lo + 1) Hrest). lia.
Qed.

Lemma same_decoded_eq (x y : exc (option float)) : same_decoded x y = true -> x = y.
Proof.
  destruct x as [[a | ] | ex], y as [[b | ] | ey]; cbn; try discriminate.
  - intros H. apply Leibniz.eqb_spec in H. congruence.
  - reflexivity.
Qed.

Lemma same_encoded_eq (x : exc Z) (z : Z) : same_encoded x z = true -> x = Ok z.
Proof.
  destruct x as [r | e]; cbn; [ | discriminate].
  intros H. apply Z.eqb_eq in H. congruence.
Qed.

(** ** The register codec *)

(** Every register value decodes without an exception, to the quotient by
    [10.0] of the exact float of its two's-complement reading. *)
Lemma decode_temperature_register (raw : Z) :
  is_register raw ->
  decode_temperature raw =
    if raw =? 0x8000 then Ok None
    else Ok (Some (exact_float (signed16 raw) / 10)%float).
Proof.
  intros Hraw. apply same_decoded_eq.
  apply (zrange_forallb
           (fun r => same_decoded (decode_temperature r)
                       (if r =? 0x8000 then Ok None
                        else Ok (Some (exact_float (signed16 r) / 10)%float)))
           (Z.to_nat 65536) 0).
  - vm_compute. reflexivity.
  - unfold is_register in Hraw. rewrite Z2Nat.id; lia.
Qed.

(** Encoding what a register decodes to gives the register back: ten times
    the decoded float is the signed reading again, exactly. *)
Lemma encode_decode_register (raw : Z) :
  is_register raw -> raw <> 0x8000 ->
  exists f, decode_temperature raw = Ok (Some f) /\ encode_temperature f = Ok raw.
Proof.
  intros Hraw Hne.
  pose proof (zrange_forallb
           (fun r => (r =? 0x8000) ||
                     match decode_temperature r with
                     | Ok (Some f) => same_encoded (encode_temperature f) r
                     | _ => false
                     end)
           (Z.to_nat 65536) 0) as Hall.
  specialize (Hall ltac:(vm_compute; reflexivity) raw).
  unfold is_register in Hraw. rewrite Z2Nat.id in Hall by lia.
  specialize (Hall ltac:(lia)).
  apply orb_prop in Hall. destruct Hall as [Hs | Hd].
  - apply Z.eqb_eq in Hs. contradiction.
  - destruct (decode_temperature raw) as [[f | ] | e]; try discriminate.
    exists f. split; [reflexivity | apply same_encoded_eq, Hd].
Qed.

(** Floats that compare equal encode alike (the two zeros both give 0). *)
Lemma encode_temperature_eqb (x y : float) :
  (x =? y)%float = true -> encode_temperature x = encode_temperature y.
Proof.
  rewrite eqb_spec. intros H.
  unfold encode_temperature, int_of_float. rewrite !mul_spec.
  change (Prim2SF 10) with (S754_finite false 5629499534213120 (-49)).
  unfold SFeqb, SFcompare in H.
  destruct (Prim2SF x) as [sx | sx | | sx mx ex],
           (Prim2SF y) as [sy | sy | | sy my ey];
    try discriminate; try reflexivity;
    try (destruct sx; discriminate); try (destruct sy; discriminate).
  assert (sx = sy /\ ex = ey /\ mx = my) as (-> & -> & ->).
    { rewrite Pos.compare_cont_spec in H. cbn [Pos.switch_Eq] in H.
    destruct sx, sy; try discriminate;
      destruct (Z.compare_spec ex ey); try discriminate;
      destruct (Pos.compare_spec mx my); try discriminate;
      repeat split; assumption. }
  reflexivity.
Qed.

(** [trunc_finite] is division rounding toward zero ([Z.quot]) of the exact
    value [(-1)^s * m * 2^e], written as a fraction of integers. *)
Lemma trunc_finite_quot (s : bool) (m : positive) (e : Z) :
  trunc_finite s m e =
    Z.quot (cond_Zopp s (Zpos m) * 2 ^ Z.max 0 e) (2 ^ Z.max 0 (- e)).
Proof.
  unfold trunc_finite.
  destruct (Z.leb_spec 0 e) as [He | He].
  - rewrite Z.max_r, Z.max_l by lia.
    rewrite Z.pow_0_r, Z.quot_1_r, Z.shiftl_mul_pow2 by lia.
    destruct s; cbn [cond_Zopp]; lia.
  - rewrite Z.max_l, Z.max_r by lia.
    rewrite Z.pow_0_r, Z.mul_1_r, Z.shiftr_div_pow2 by lia.
    assert (0 < 2 ^ (- e)) as Hp by (apply Z.pow_pos_nonneg; lia).
    destruct s; cbn [cond_Zopp].
    + rewrite Z.quot_opp_l by lia. rewrite Z.quot_div_nonneg by lia. reflexivity.
    + rewrite Z.quot_div_nonneg by lia. reflexivity.
Qed.

(** In the correction range the encoded value is a register value, and far
    from the sentinel on both sides. *)
Lemma encode_temperature_correction (v : float) :
  (- 327.6 <=? v)%float = true -> (v <=? 327.6)%float = true ->
  exists raw, encode_temperature v = Ok raw /\
              (0 <= raw < 16384 \/ 49152 < raw <= 65535).
Proof.
  intros Hlo Hhi.
  destruct (int_of_scaled_correction v Hlo Hhi) as (r & Hr & Hb).
  unfold encode_temperature. rewrite Hr. cbn [exc_bind].
  change (2 ^ 14) with 16384 in Hb.
  eexists. split; [reflexivity |].
  destruct (Z.ltb_spec r 0); lia.
Qed.

(** C1: for every raw register value in [0, 65535], [decode_temperature]
    returns [None] if and only if the value is 0x8000; every other value
    decodes, without an exception, to [(raw - 65536) / 10.0] above 32767 and
    to [raw / 10.0] otherwise. In particular 32767 gives 3276.7, 32768 gives
    [None] (not -3276.8) and 65535 gives -0.1. The copy in [modbus_py.py]
    agrees with the method of the class. *)
Theorem decode_temperature_spec (raw : Z) :
  is_register raw ->
  (decode_temperature raw = Ok None <-> raw = 0x8000) /\
  decode_temperature raw =
    (if raw =? 0x8000 then Ok None
     else if raw >? 32767 then Ok (Some (exact_float (raw - 65536) / 10)%float)
     else Ok (Some (exact_float raw / 10)%float)) /\
  modbus_py.decode_temperature raw = decode_temperature raw /\
  decode_temperature 32767 = Ok (Some 3276.7%float) /\
  decode_temperature 32768 = Ok None /\
  decode_temperature 32768 <> Ok (Some (-3276.8)%float) /\
  decode_temperature 65535 = Ok (Some (-0.1)%float).
Proof.
  intros Hraw. pose proof (decode_temperature_register raw Hraw) as Hd.
  unfold signed16 in Hd.
  repeat split; try (vm_compute; reflexivity).
  - rewrite Hd. destruct (Z.eqb_spec raw 0x8000); [easy | discriminate].
  - intros ->. reflexivity.
  - rewrite Hd. destruct (raw =? 0x8000), (raw >? 32767); reflexivity.
  - discriminate.
Qed.

Lemma decode_temperature_spec_witness :
  is_register 250 /\ decode_temperature 250 = Ok (Some 25%float).
Proof.
  assert (is_register 250) as H by (unfold is_register; lia).
  split; [exact H |].
  exact (proj1 (proj2 (decode_temperature_spec 250 H))).
Defined.

(** C2: for every integer [t] with -3276 <= t <= 3276, encoding [t / 10.0]
    and decoding the register gives [t / 10.0] back: the same float, which
    compares equal to itself. *)
Theorem decode_encode_round_trip (t : Z) :
  -3276 <= t <= 3276 ->
  exists x raw,
    exc_bind (float_of_int t) (fun ft => Ok (ft / 10)%float) = Ok x /\
    x = (exact_float t / 10)%float /\
    encode_temperature x = Ok raw /\
    decode_temperature raw = Ok (Some x) /\
    opt_float_eq (Some x) (Some x) = true.
Proof.
  intros Ht.
  pose proof (zrange_forallb
    (fun t =>
       match float_of_int t with
       | Ok ft =>
           let x := (ft / 10)%float in
           PrimFloat.Leibniz.eqb x (exact_float t / 10)%float &&
           match encode_temperature x with
           | Ok raw => same_decoded (decode_temperature raw) (Ok (Some x)) &&
                       (x =? x)%float
           | Raise _ => false
           end
       | Raise _ => false
       end) (Z.to_nat 6553) (-3276)) as Hall.
  specialize (Hall ltac:(vm_compute; reflexivity) t ltac:(lia)).
  cbv beta zeta in Hall.
  destruct (float_of_int t) as [ft | e]; [ | discriminate].
  apply andb_prop in Hall. destruct Hall as [Hx Hall].
  apply Leibniz.eqb_spec in Hx.
  destruct (encode_temperature (ft / 10)) as [raw | e] eqn:Eenc; [ | discriminate].
  apply andb_prop in Hall. destruct Hall as [Hdec Hself].
  apply same_decoded_eq in Hdec.
  exists (ft / 10)%float, raw. cbn [exc_bind opt_float_eq]. auto.
Qed.

Lemma decode_encode_round_trip_witness :
  -3276 <= -3276 <= 3276 /\
  exists x raw,
    exc_bind (float_of_int (-3276)) (fun ft => Ok (ft / 10)%float) = Ok x /\
    x = (exact_float (-3276) / 10)%float /\
    encode_temperature x = Ok raw /\
    decode_temperature raw = Ok (Some x) /\
    opt_float_eq (Some x) (Some x) = true.
Proof.
  assert (-3276 <= -3276 <= 3276) as H by lia.
  split; [exact H | exact (decode_encode_round_trip (-3276) H)].
Defined.

(** C8: [encode_temperature] truncates the float product [value * 10] toward
    zero and adds 65536 to a negative result: for a finite product
    [(-1)^s * m * 2^e] the result is the quotient rounded toward zero of that
    value, plus 65536 when negative; a zero product gives 0; a NaN or infinite
    product has no integer value and raises. In particular 327.6 encodes to
    3276 and -327.6 to 62260. *)
Theorem encode_temperature_truncates (value : float) :
  match Prim2SF (value * 10)%float with
  | S754_finite s m e =>
      let raw_signed :=
        Z.quot (cond_Zopp s (Zpos m) * 2 ^ Z.max 0 e) (2 ^ Z.max 0 (- e)) in
      encode_temperature value =
        Ok (if raw_signed <? 0 then raw_signed + 65536 else raw_signed)
  | S754_zero _ => encode_temperature value = Ok 0
  | S754_infinity _ =>
      encode_temperature value =
        Raise (mkExc OverflowError "cannot convert float infinity to integer")
  | S754_nan =>
      encode_temperature value =
        Raise (mkExc ValueError "cannot convert float NaN to integer")
  end /\
  encode_temperature 327.6 = Ok 3276 /\
  encode_temperature (-327.6) = Ok 62260.
Proof.
  split; [ | repeat split; vm_compute; reflexivity].
  unfold encode_temperature, int_of_float.
  destruct (Prim2SF (value * 10)) as [s | s | | s m e]; cbn [exc_bind];
    try reflexivity.
  cbv zeta. rewrite trunc_finite_quot. reflexivity.
Qed.

(** C9: for every value [v] with -327.6 <= v <= 327.6, [encode_temperature v]
    is defined, lies in [0, 65535] and is not the sentinel 0x8000. *)
Theorem encode_temperature_never_sentinel (v : float) :
  (- 327.6 <=? v)%float = true -> (v <=? 327.6)%float = true ->
  exists raw, encode_temperature v = Ok raw /\
              0 <= raw <= 65535 /\ raw <> 0x8000.
Proof.
  intros Hlo Hhi.
  destruct (encode_temperature_correction v Hlo Hhi) as (raw & Hraw & Hb).
  exists raw. split; [exact Hraw | lia].
Qed.

Lemma encode_temperature_never_sentinel_witness :
  exists raw, encode_temperature (-327.6) = Ok raw /\
              0 <= raw <= 65535 /\ raw <> 0x8000.
Proof.
  apply (encode_temperature_never_sentinel (-327.6)); vm_compute; reflexivity.
Defined.

(** C10: [decode_temperature] is injective on the register values other than
    the sentinel: distinct values decode to distinct floats, which also
    compare unequal. *)
Theorem decode_temperature_injective (a b : Z) :
  is_register a -> is_register b -> a <> 0x8000 -> b <> 0x8000 -> a <> b ->
  decode_temperature a <> decode_temperature b /\
  exists x y, decode_temperature a = Ok (Some x) /\
              decode_temperature b = Ok (Some y) /\
              opt_float_eq (Some x) (Some y) = false.
Proof.
  intros Ha Hb Hsa Hsb Hne.
  destruct (encode_decode_register a Ha Hsa) as (x & Hdx & Hex).
  destruct (encode_decode_register b Hb Hsb) as (y & Hdy & Hey).
  assert ((x =? y)%float = false) as Hxy.
  { destruct (x =? y)%float eqn:E; [ | reflexivity].
    apply encode_temperature_eqb in E. congruence. }
  split.
  - rewrite Hdx, Hdy. intros Heq.
    assert (x = y) as -> by congruence. congruence.
  - exists x, y. cbn [opt_float_eq]. auto.
Qed.

Lemma decode_temperature_injective_witness :
  decode_temperature 32767 <> decode_temperature 32769 /\
  exists x y, decode_temperature 32767 = Ok (Some x) /\
              decode_temperature 32769 = Ok (Some y) /\
              opt_float_eq (Some x) (Some y) = false.
Proof.
  apply (decode_temperature_injective 32767 32769);
    unfold is_register; lia.
Defined.

(** ** The device client *)

Section ClientProperties.

Variable bus : transport.

(** The reads of the class never reach the transport: on an instance that
    holds a transport object the call is rejected, on one that holds none the
    attribute lookup fails. Either way the [except] clause raises [Exception]
    with the prefix of the operation, and the world is as it was. *)
Lemma read_all_temperatures_run (self : R4DCB08Client) (w : world) :
  read_all_temperatures bus self w =
    (Raise (mkExc Exception_
              ("Failed to read temperatures: " ++ read_rejection self)),
     w).
Proof.
  unfold read_all_temperatures, try_except, bind, client_read_holding_registers,
    read_holding_registers, raise, read_rejection.
  destruct (client self); reflexivity.
Qed.

Lemma read_single_temperature_out_of_range (self : R4DCB08Client) (w : world)
    (channel : Z) :
  channel < 0 \/ 7 < channel ->
  read_single_temperature bus self channel w =
    (Raise (mkExc ValueError "Channel must be 0-7"), w).
Proof.
  intros Hout. unfold read_single_temperature.
  replace ((0 <=? channel) && (channel <=? 7)) with false; [reflexivity |].
  symmetry. apply andb_false_iff.
  destruct Hout; [left; apply Z.leb_gt | right; apply Z.leb_gt]; lia.
Qed.

Lemma read_single_temperature_run (self : R4DCB08Client) (w : world)
    (channel : Z) :
  0 <= channel <= 7 ->
  read_single_temperature bus self channel w =
    (Raise (mkExc Exception_
              ("Failed to read temperature from channel " ++ str_of_int channel
                 ++ ": " ++ read_rejection self)),
     w).
Proof.
  intros Hch. unfold read_single_temperature.
  replace ((0 <=? channel) && (channel <=? 7)) with true
    by (symmetry; apply andb_true_intro; split; apply Z.leb_le; lia).
  cbn [negb].
  unfold try_except, bind, client_read_holding_registers,
    read_holding_registers, raise, read_rejection.
  destruct (client self); reflexivity.
Qed.

(** C3, a defect of the code: the transaction of [read_all_temperatures] never
    takes place. On an instance that holds a transport object, as [connect]
    leaves it, the call of line 88 passes the count by position; the method
    takes it by keyword only, so the call is rejected before the transport is
    reached and the [except] clause raises [Exception] with the prefix of the
    operation. No transport call is made and no value is returned, whatever
    the device holds: so in scenario A, where one transaction was to give
    [25.0, None, -5.0, 0.0, 0.0, 0.0, 0.0, 0.0]. The script of [modbus_py.py]
    passes [count=8] by keyword, and its read reaches the device. *)
Theorem read_all_temperatures_never_reads (self : R4DCB08Client)
    (h : ModbusSerialClient) (w : world) :
  client self = Some h ->
  read_all_temperatures bus self w =
    (Raise (mkExc Exception_
              ("Failed to read temperatures: " ++ exc_str count_is_keyword_only)),
     w) /\
  read_all_temperatures bus_A connected_client empty_world =
    (Raise (mkExc Exception_
              ("Failed to read temperatures: " ++ exc_str count_is_keyword_only)),
     empty_world).
Proof.
  intros Hc. split.
  - rewrite read_all_temperatures_run. unfold read_rejection. rewrite Hc.
    reflexivity.
  - vm_compute. reflexivity.
Qed.

(** C5, a defect of the code in its second half. For every channel outside
    [0, 7] [read_single_temperature] raises [ValueError] and the world is
    unchanged (no transport call), whatever the state of the client; so for
    the channels 8 and -1. For a channel in [0, 7], on an instance that holds
    a transport object, the read never takes place: the call of line 102
    passes the count by position and is rejected before the transport is
    reached, and the [except] clause raises [Exception] with the prefix of the
    operation; no transport call is made and no value is returned. So for
    channel 2 in scenario A, where one transaction was to give 25.0. *)
Theorem read_single_temperature_never_reads (self : R4DCB08Client) (w : world)
    (channel : Z) :
  let outcome := read_single_temperature bus self channel w in
  (channel < 0 \/ 7 < channel ->
     outcome = (Raise (mkExc ValueError "Channel must be 0-7"), w)) /\
  (0 <= channel <= 7 -> forall h, client self = Some h ->
     outcome =
       (Raise (mkExc Exception_
                 ("Failed to read temperature from channel " ++ str_of_int channel
                    ++ ": " ++ exc_str count_is_keyword_only)),
        w)) /\
  read_single_temperature bus_A connected_client 8 empty_world =
    (Raise (mkExc ValueError "Channel must be 0-7"), empty_world) /\
  read_single_temperature bus_A connected_client (-1) empty_world =
    (Raise (mkExc ValueError "Channel must be 0-7"), empty_world) /\
  read_single_temperature bus_A connected_client 2 empty_world =
    (Raise (mkExc Exception_
              ("Failed to read temperature from channel 2: "
                 ++ exc_str count_is_keyword_only)),
     empty_world).
Proof.
  intros outcome. subst outcome.
  split; [ | split; [ | split; [ | split]]].
  - apply read_single_temperature_out_of_range.
  - intros Hch h Hc. rewrite (read_single_temperature_run self w channel Hch).
    unfold read_rejection. rewrite Hc. reflexivity.
  - reflexivity.
  - reflexivity.
  - vm_compute. reflexivity.
Qed.

(** [set_temperature_correction] past its two checks, on a connected client. *)
Lemma set_temperature_correction_run (self : R4DCB08Client)
    (h : ModbusSerialClient) (w : world) (channel : Z) (correction : float)
    (raw : Z) :
  client self = Some h -> 0 <= channel <= 7 ->
  (- 327.6 <=? correction)%float = true -> (correction <=? 327.6)%float = true ->
  encode_temperature correction = Ok raw ->
  let wrap := fun msg =>
    mkExc Exception_ ("Failed to set correction for channel "
                        ++ str_of_int channel ++ ": " ++ msg) in
  set_temperature_correction bus self channel correction w =
    (match on_write_register bus (calls w) (0x0008 + channel) raw (address self) with
     | Ok r =>
         if isError r then Raise (wrap ("Modbus error: " ++ pdu_str r)%string)
         else Ok tt
     | Raise e => Raise (wrap (exc_str e))
     end,
     mkWorld (calls w ++ [WriteRegister (0x0008 + channel) raw (address self)])
             (stdout w)).
Proof.
  intros Hc Hch Hlo Hhi Henc wrap. subst wrap.
  unfold set_temperature_correction.
  replace ((0 <=? channel) && (channel <=? 7)) with true
    by (symmetry; apply andb_true_intro; split; apply Z.leb_le; lia).
  rewrite Hlo, Hhi. cbn [negb andb].
  unfold try_except, bind, client_write_register, transact, raise, lift, ret.
  rewrite Henc, Hc.
  destruct (on_write_register bus (calls w) (8 + channel) raw (address self))
    as [r | e]; [ | reflexivity].
  destruct (isError r); reflexivity.
Qed.

(** C4: on a connected client, for every channel in [0, 7] and every value
    with -327.6 <= v <= 327.6, [set_temperature_correction] makes exactly one
    transport call: a write of [encode_temperature v] to the single register
    at address 0x0008 + channel of the device; it returns normally when the
    transport's answer is not an error. Writing 1.5 to channel 3 writes the
    raw value 15 to address 0x000B. *)
Theorem set_temperature_correction_spec (self : R4DCB08Client)
    (h : ModbusSerialClient) (w : world) (c : Z) (v : float) :
  client self = Some h -> 0 <= c <= 7 ->
  (- 327.6 <=? v)%float = true -> (v <=? 327.6)%float = true ->
  let outcome := set_temperature_correction bus self c v w in
  exists raw,
    encode_temperature v = Ok raw /\
    snd outcome =
      mkWorld (calls w ++ [WriteRegister (0x0008 + c) raw (address self)])
              (stdout w) /\
    (forall r,
       on_write_register bus (calls w) (0x0008 + c) raw (address self) = Ok r ->
       isError r = false -> fst outcome = Ok tt) /\
    set_temperature_correction bus_ack connected_client 3 1.5 empty_world =
      (Ok tt, mkWorld [WriteRegister 0x000B 15 1] []).
Proof.
  intros Hc Hch Hlo Hhi outcome. subst outcome.
  destruct (encode_temperature_correction v Hlo Hhi) as (raw & Henc & _).
  exists raw. split; [exact Henc |].
  rewrite (set_temperature_correction_run self h w c v raw Hc Hch Hlo Hhi Henc).
  cbn [fst snd]. split; [reflexivity |].
  split; [ | vm_compute; reflexivity].
  intros r -> ->. reflexivity.
Qed.

(** C6: for every correction value that fails the test
    -327.6 <= correction <= 327.6 (NaN included),
    [set_temperature_correction] raises [ValueError] and the world is
    unchanged (no transport call). With a channel in [0, 7], which the
    operation requires, the message states the allowed range, -327.6 to
    +327.6; a channel outside [0, 7] fails its own check, which comes first,
    with the message of the channel. *)
Theorem set_temperature_correction_out_of_range (self : R4DCB08Client)
    (w : world) (channel : Z) (correction : float) :
  (- 327.6 <=? correction)%float && (correction <=? 327.6)%float = false ->
  set_temperature_correction bus self channel correction w =
    (Raise (mkExc ValueError
              (if (0 <=? channel) && (channel <=? 7)
               then "Correction must be between -327.6 and +327.6 °C"
               else "Channel must be 0-7")), w).
Proof.
  intros Hout. unfold set_temperature_correction.
  destruct ((0 <=? channel) && (channel <=? 7)); cbn [negb]; [ | reflexivity].
  rewrite Hout. reflexivity.
Qed.

(** C7, amended: on an instance whose [client] attribute is still [None]
    (as [__init__] leaves it), each of the four operations raises and leaves
    the world unchanged (no transport call). Arguments that fail a check
    raise the check's [ValueError]; otherwise the failed attribute lookup on
    [None] is caught and raised again as the builtin [Exception], with the
    operation's prefix. *)
Theorem operations_without_client (self : R4DCB08Client) (w : world) :
  client self = None ->
  read_all_temperatures bus self w =
    (Raise (mkExc Exception_
       "Failed to read temperatures: 'NoneType' object has no attribute 'read_holding_registers'"),
     w) /\
  read_temperature_corrections bus self w =
    (Raise (mkExc Exception_
       "Failed to read temperature corrections: 'NoneType' object has no attribute 'read_holding_registers'"),
     w) /\
  (forall channel,
     read_single_temperature bus self channel w =
       (Raise (if (0 <=? channel) && (channel <=? 7)
               then mkExc Exception_
                      ("Failed to read temperature from channel "
                         ++ str_of_int channel
                         ++ ": 'NoneType' object has no attribute 'read_holding_registers'")
               else mkExc ValueError "Channel must be 0-7"), w)) /\
  (forall channel correction,
     set_temperature_correction bus self channel correction w =
       (Raise (if (0 <=? channel) && (channel <=? 7)
               then if (- 327.6 <=? correction)%float && (correction <=? 327.6)%float
                    then mkExc Exception_
                           ("Failed to set correction for channel "
                              ++ str_of_int channel
                              ++ ": 'NoneType' object has no attribute 'write_register'")
                    else mkExc ValueError
                           "Correction must be between -327.6 and +327.6 °C"
               else mkExc ValueError "Channel must be 0-7"), w)) /\
  (forall port address baudrate timeout,
     client (__init__ port address baudrate timeout) = None).
Proof.
  intros Hc. repeat split.
  - unfold read_all_temperatures, try_except, bind, client_read_holding_registers,
      raise. rewrite Hc. reflexivity.
  - unfold read_temperature_corrections, try_except, bind,
      client_read_holding_registers, raise. rewrite Hc. reflexivity.
  - intros channel. unfold read_single_temperature.
    destruct ((0 <=? channel) && (channel <=? 7)); cbn [negb]; [ | reflexivity].
    unfold try_except, bind, client_read_holding_registers, raise.
    rewrite Hc. reflexivity.
  - intros channel correction. unfold set_temperature_correction.
    destruct ((0 <=? channel) && (channel <=? 7)); cbn [negb]; [ | reflexivity].
    destruct ((- 327.6 <=? correction)%float && (correction <=? 327.6)%float)
      eqn:Hin; cbn [negb]; [ | reflexivity].
    apply andb_prop in Hin. destruct Hin as [Hlo Hhi].
    destruct (encode_temperature_correction correction Hlo Hhi) as (raw & Henc & _).
    unfold try_except, bind, lift, client_write_register, raise.
    rewrite Henc, Hc. reflexivity.
Qed.

End ClientProperties.

(** ** The statements at work on the scenarios *)

Lemma read_all_temperatures_never_reads_witness :
  exists e,
    fst (read_all_temperatures bus_A connected_client empty_world) = Raise e /\
    calls (snd (read_all_temperatures bus_A connected_client empty_world)) = [].
Proof.
  destruct (read_all_temperatures_never_reads bus_A connected_client
              (mkModbusClient "/dev/ttyUSB0" 9600 "N" 1 8 1) empty_world eq_refl)
    as (Hrun & _).
  eexists. rewrite Hrun. split; reflexivity.
Defined.

Lemma read_single_temperature_never_reads_witness :
  read_single_temperature bus_A connected_client 9 empty_world =
    (Raise (mkExc ValueError "Channel must be 0-7"), empty_world) /\
  exists e,
    fst (read_single_temperature bus_A connected_client 2 empty_world) = Raise e /\
    calls (snd (read_single_temperature bus_A connected_client 2 empty_world)) = [].
Proof.
  split.
  - destruct (read_single_temperature_never_reads bus_A connected_client
                empty_world 9) as (Hout & _).
    apply Hout. right. lia.
  - destruct (read_single_temperature_never_reads bus_A connected_client
                empty_world 2) as (_ & Hin & _).
    eexists.
    rewrite (Hin ltac:(lia) (mkModbusClient "/dev/ttyUSB0" 9600 "N" 1 8 1) eq_refl).
    split; reflexivity.
Defined.

Lemma set_temperature_correction_spec_witness :
  exists raw,
    encode_temperature 1.5 = Ok raw /\
    snd (set_temperature_correction bus_ack connected_client 3 1.5 empty_world) =
      mkWorld [WriteRegister (0x0008 + 3) raw 1] [].
Proof.
  destruct (set_temperature_correction_spec bus_ack connected_client
              (mkModbusClient "/dev/ttyUSB0" 9600 "N" 1 8 1) empty_world 3 1.5
              eq_refl ltac:(lia) eq_refl eq_refl)
    as (raw & Henc & Hw & _).
  exists raw. split; [exact Henc | exact Hw].
Defined.

Lemma set_temperature_correction_out_of_range_witness :
  set_temperature_correction bus_ack connected_client 0 327.7 empty_world =
    (Raise (mkExc ValueError "Correction must be between -327.6 and +327.6 °C"),
     empty_world) /\
  set_temperature_correction bus_ack connected_client 0 (-327.7) empty_world =
    (Raise (mkExc ValueError "Correction must be between -327.6 and +327.6 °C"),
     empty_world) /\
  set_temperature_correction bus_ack connected_client 0 nan empty_world =
    (Raise (mkExc ValueError "Correction must be between -327.6 and +327.6 °C"),
     empty_world).
Proof.
  split; [ | split].
  - apply (set_temperature_correction_out_of_range bus_ack connected_client
             empty_world 0 327.7). reflexivity.
  - apply (set_temperature_correction_out_of_range bus_ack connected_client
             empty_world 0 (-327.7)). reflexivity.
  - apply (set_temperature_correction_out_of_range bus_ack connected_client
             empty_world 0 nan). reflexivity.
Defined.

Lemma operations_without_client_witness :
  read_all_temperatures bus_A fresh_client empty_world =
    (Raise (mkExc Exception_
       "Failed to read temperatures: 'NoneType' object has no attribute 'read_holding_registers'"),
     empty_world).
Proof.
  exact (proj1 (operations_without_client bus_A fresh_client empty_world eq_refl)).
Defined.

(** C7, as stated, fails: the code has no failure kind of its own for a
    missing connection. However the exception classes are read as failure
    kinds, a read on the fresh instance cannot be [NotConnected] while a write
    answered by an error response is [TransportError] (both raise the builtin
    [Exception]), nor while a bad channel is [InvalidArgument] (on the fresh
    instance channel 8 raises the same [ValueError]). And once [connect] has
    been tried and has answered [False], a write does call the transport. *)
Lemma no_failure_kind_for_a_missing_connection :
  (~ exists kind_of : exc_class -> failure_kind,
       fails_with kind_of NotConnected
         (read_all_temperatures bus_error fresh_client empty_world) /\
       fails_with kind_of TransportError
         (set_temperature_correction bus_error connected_client 3 1.5
                                     empty_world)) /\
  (~ exists kind_of : exc_class -> failure_kind,
       fails_with kind_of NotConnected
         (read_single_temperature bus_error fresh_client 8 empty_world) /\
       fails_with kind_of InvalidArgument
         (read_single_temperature bus_error connected_client 8 empty_world)) /\
  (exists self' w',
     connect bus_refusing fresh_client empty_world = (Ok (false, self'), w') /\
     calls (snd (set_temperature_correction bus_refusing self' 3 1.5 w')) =
       calls w' ++ [WriteRegister 0x000B 15 1]).
Proof.
  split; [ | split].
  - intros (kind_of & (e1 & H1 & K1) & (e2 & H2 & K2)).
    vm_compute in H1, H2.
    injection H1 as <-. injection H2 as <-.
    cbn [exc_type] in K1, K2. congruence.
  - intros (kind_of & (e1 & H1 & K1) & (e2 & H2 & K2)).
    vm_compute in H1, H2.
    injection H1 as <-. injection H2 as <-.
    cbn [exc_type] in K1, K2. congruence.
  - eexists. eexists. split; vm_compute; reflexivity.
Qed.

(** ** Binary64 rounding: the value of a rounded mantissa *)

Lemma shr_1_value (r : shr_record) :
  0 <= shr_m r -> shr_m (shr_1 r) = shr_m r / 2.
Proof.
  destruct r as [m rb sb]. cbn [shr_m].
  destruct m as [ | [p | p | ] | p ]; intros H; cbn [shr_1 shr_m];
    try lia; try reflexivity.
  - apply Z.div_unique with 1; lia.
  - apply Z.div_unique with 0; lia.
Qed.

Lemma iter_shr_1_value (p : positive) : forall r : shr_record,
  0 <= shr_m r ->
  shr_m (iter_pos shr_1 p r) = shr_m r / 2 ^ Zpos p.
Proof.
  induction p as [p IH | p IH | ]; intros r H; cbn [iter_pos].
  - pose proof (shr_1_digits r H) as [H1 _].
    pose proof (iter_shr_1_digits p _ H1) as [H2 _].
    rewrite (IH _ H2), (IH _ H1), shr_1_value by exact H.
    rewrite !Z.div_div by (try apply Z.pow_pos_nonneg; lia).
    f_equal. rewrite (Pos2Z.inj_xI p).
    replace (2 * Zpos p + 1) with (1 + Zpos p + Zpos p) by lia.
    rewrite !Z.pow_add_r by lia. lia.
  - pose proof (iter_shr_1_digits p _ H) as [H2 _].
    rewrite (IH _ H2), (IH _ H).
    rewrite !Z.div_div by (try apply Z.pow_pos_nonneg; lia).
    f_equal. rewrite (Pos2Z.inj_xO p).
    replace (2 * Zpos p) with (Zpos p + Zpos p) by lia.
    rewrite !Z.pow_add_r by lia. lia.
  - rewrite shr_1_value by exact H. reflexivity.
Qed.

Lemma shr_fexp_value (m e : Z) (l : location) :
  0 <= m ->
  let '(r, e') := shr_fexp prec emax m e l in
  e' = Z.max e (fexp prec emax (Zdigits2 m + e)) /\
  shr_m r = m / 2 ^ (e' - e).
Proof.
  intros Hm. unfold shr_fexp, shr.
  rewrite fexp_binary64.
  destruct (Z.max (Zdigits2 m + e - 53) (-1074) - e) as [ | n | n ] eqn:En;
    rewrite ?shr_record_of_loc_m.
  - split; [lia |]. replace (e - e) with 0 by lia. rewrite Z.pow_0_r, Z.div_1_r.
    reflexivity.
  - split; [lia |].
    rewrite iter_shr_1_value by (rewrite shr_record_of_loc_m; exact Hm).
    rewrite shr_record_of_loc_m. f_equal. f_equal. lia.
  - split; [lia |]. replace (e - e) with 0 by lia. rewrite Z.pow_0_r, Z.div_1_r.
    reflexivity.
Qed.

Lemma round_nearest_even_le (m : Z) (l : location) :
  round_nearest_even m l <= m + 1.
Proof.
  unfold round_nearest_even.
  destruct l as [ | [ | | ] ]; try destruct (Z.even m); lia.
Qed.

(** The value of a rounded mantissa, at the scale of the input exponent, is
    at most the input mantissa plus one unit of the exponent rounded to. *)
Lemma binary_round_aux_value (sx : bool) (mx ex : Z) (lx : location)
    (m : positive) (e : Z) :
  0 <= mx ->
  binary_round_aux prec emax sx mx ex lx = S754_finite sx m e ->
  ex <= e /\
  Zpos m * 2 ^ (e - ex) <=
    mx + 2 ^ (Z.max ex (fexp prec emax (Zdigits2 mx + ex)) - ex).
Proof.
  intros Hm. unfold binary_round_aux.
  pose proof (shr_fexp_magnitude mx ex lx Hm) as H1.
  pose proof (shr_fexp_value mx ex lx Hm) as V1.
  destruct (shr_fexp prec emax mx ex lx) as [r1 e1].
  destruct H1 as (Hr1 & _ & _). destruct V1 as (He1 & Hv1).
  destruct (round_nearest_even_bounds (shr_m r1) (loc_of_shr_record r1) Hr1)
    as [Hr2 _].
  pose proof (round_nearest_even_le (shr_m r1) (loc_of_shr_record r1)) as Hle2.
  set (m2 := round_nearest_even (shr_m r1) (loc_of_shr_record r1)) in *.
  pose proof (shr_fexp_value m2 e1 loc_Exact Hr2) as V3.
  destruct (shr_fexp prec emax m2 e1 loc_Exact) as [r3 e3].
  destruct V3 as (He3 & Hv3).
  rewrite <- He1.
  destruct (shr_m r3) as [ | m3 | m3 ] eqn:Em3; try discriminate.
  destruct (e3 <=? emax - prec); [ | discriminate].
  intros Heq. injection Heq as -> ->.
  assert (e1 <= e) as Hee by lia. assert (ex <= e1) as Hxe by lia.
  split; [lia |].
  assert (0 < 2 ^ (e - e1)) as Hp3 by (apply Z.pow_pos_nonneg; lia).
  assert (0 < 2 ^ (e1 - ex)) as Hp1 by (apply Z.pow_pos_nonneg; lia).
  assert (Zpos m * 2 ^ (e - e1) <= m2) as Hs3.
  { rewrite Hv3, Z.mul_comm. apply Z.mul_div_le. exact Hp3. }
  assert (shr_m r1 * 2 ^ (e1 - ex) <= mx) as Hs1.
  { rewrite Hv1, Z.mul_comm. apply Z.mul_div_le. exact Hp1. }
  replace (e - ex) with ((e - e1) + (e1 - ex)) by lia.
  rewrite Z.pow_add_r by lia. nia.
Qed.

Lemma trunc_finite_le (s : bool) (m : positive) (e ex B : Z) :
  ex <= e -> ex <= 0 ->
  Zpos m * 2 ^ (e - ex) < (B + 1) * 2 ^ (- ex) ->
  - B <= trunc_finite s m e <= B.
Proof.
  intros Hee Hex Hlt.
  assert (0 <= (if 0 <=? e then Z.shiftl (Zpos m) e else Z.shiftr (Zpos m) (- e)) <= B)
    as Hb.
  { destruct (Z.leb_spec 0 e) as [He | He].
    - rewrite Z.shiftl_mul_pow2 by lia.
      assert (0 < 2 ^ e) by (apply Z.pow_pos_nonneg; lia).
      assert (0 < 2 ^ (- ex)) as Hp by (apply Z.pow_pos_nonneg; lia).
      split; [lia |].
      replace (e - ex) with (e + - ex) in Hlt by lia.
      rewrite Z.pow_add_r, Z.mul_assoc in Hlt by lia.
      apply Z.mul_lt_mono_pos_r in Hlt; [lia | exact Hp].
    - rewrite Z.shiftr_div_pow2 by lia.
      assert (0 < 2 ^ (- e)) as Hp by (apply Z.pow_pos_nonneg; lia).
      assert (0 < 2 ^ (e - ex)) as Hq by (apply Z.pow_pos_nonneg; lia).
      split; [apply Z.div_pos; lia |].
      replace (- ex) with (- e + (e - ex)) in Hlt by lia.
      rewrite Z.pow_add_r, Z.mul_assoc in Hlt by lia.
      apply Z.mul_lt_mono_pos_r in Hlt; [ | exact Hq].
      assert (Zpos m / 2 ^ (- e) < B + 1); [ | lia].
      apply Z.div_lt_upper_bound; [exact Hp | lia]. }
  unfold trunc_finite. destruct s; cbn [cond_Zopp]; lia.
Qed.

Lemma in_correction_range_finite (v : float) (s : bool) (m : positive) (e : Z) :
  (- 327.6 <=? v)%float = true -> (v <=? 327.6)%float = true ->
  Prim2SF v = S754_finite s m e ->
  Zpos m < 2 ^ 53 /\
  (e < -44 \/ (e = -44 /\ Zpos m <= 5763200148150682)).
Proof.
  rewrite !leb_spec. intros Hlo Hhi Hv.
  pose proof (Prim2SF_valid v) as Hval. rewrite Hv in Hlo, Hhi, Hval.
  change (Prim2SF (- 327.6)) with (S754_finite true 5763200148150682 (-44)) in Hlo.
  change (Prim2SF 327.6) with (S754_finite false 5763200148150682 (-44)) in Hhi.
  cbn [valid_binary] in Hval. unfold bounded, canonical_mantissa in Hval.
  apply andb_prop in Hval. destruct Hval as [Hc _].
  apply Z.eqb_eq in Hc. rewrite fexp_binary64 in Hc.
  split.
  - assert (Zpos m < 2 ^ (Z.log2 (Zpos m) + 1)) as Hm by (apply Z.log2_spec; lia).
    rewrite digits2_pos_log2 in Hc.
    apply Z.lt_le_trans with (1 := Hm). apply Z.pow_le_mono_r; lia.
  - unfold SFleb, SFcompare in Hlo, Hhi.
    rewrite Pos.compare_cont_spec in Hlo, Hhi. cbn [Pos.switch_Eq] in Hlo, Hhi.
    destruct s.
    + destruct (Z.compare_spec (-44) e) as [He | | ]; [ | discriminate | lia].
      right. split; [lia |].
      destruct (Pos.compare_spec 5763200148150682 m) as [Hm | Hm | Hm];
        [subst m; apply Z.le_refl | discriminate
        | apply Z.lt_le_incl, Pos2Z.pos_lt_pos, Hm].
    + destruct (Z.compare_spec e (-44)) as [He | | ]; [ | lia | discriminate].
      right. split; [lia |].
      destruct (Pos.compare_spec m 5763200148150682) as [Hm | Hm | Hm];
        [subst m; apply Z.le_refl
        | apply Z.lt_le_incl, Pos2Z.pos_lt_pos, Hm | discriminate].
Qed.


Lemma scaled_correction_fits (m : positive) (e n : Z) :
  Zpos m < 2 ^ 53 ->
  e < -44 \/ (e = -44 /\ Zpos m <= 5763200148150682) ->
  0 <= n -> n <= 53 \/ n <= - (e + -49) - 1074 ->
  Zpos m * 5629499534213120 + 2 ^ n < (3276 + 1) * 2 ^ (- (e + -49)).
Proof.
  intros Hm Hme Hn0 Hn.
  set (k := - (e + -49)) in *.
  assert (93 <= k) as Hk93 by (subst k; lia).
  assert (2 ^ n <= 2 ^ 53 \/ 2 ^ n * 2 ^ 1074 <= 2 ^ k) as Hpn.
  { destruct Hn as [Hn | Hn].
    - left. apply Z.pow_le_mono_r; lia.
    - right. rewrite <- Z.pow_add_r by lia. apply Z.pow_le_mono_r; lia. }
  assert (2 ^ 93 <= 2 ^ k) as Hk by (apply Z.pow_le_mono_r; lia).
  assert (0 < 2 ^ n) as Hp by (apply Z.pow_pos_nonneg; lia).
  assert (2 ^ n <= 2 ^ k) as Hnk.
  { destruct Hpn as [Hpn | Hpn].
    - apply Z.le_trans with (1 := Hpn). apply Z.pow_le_mono_r; lia.
    - assert (1 <= 2 ^ 1074) by (apply (Z.pow_le_mono_r 2 0 1074); lia). nia. }
  destruct Hme as [Hlt | [He Hle]].
  - assert (2 ^ 94 <= 2 ^ k) as Hk' by (apply Z.pow_le_mono_r; subst k; lia).
    assert (Zpos m * 5629499534213120 < 2560 * 2 ^ 94) as Hprod.
    { change (2560 * 2 ^ 94) with (2 ^ 53 * 5629499534213120). 
      apply Z.mul_lt_mono_pos_r; lia. }
    generalize dependent (2 ^ k). generalize dependent (2 ^ n).
    generalize dependent (2 ^ 94). intros. lia.
  - assert (k = 93) as -> by (subst k; lia).
    assert (2 ^ n <= 2 ^ 53) as Hn53.
    { apply Z.pow_le_mono_r; lia. }
    assert (Zpos m * 5629499534213120 <= 5763200148150682 * 5629499534213120)
      as Hprod by (apply Z.mul_le_mono_nonneg_r; lia).
    assert (5763200148150682 * 5629499534213120 + 2 ^ 53 < (3276 + 1) * 2 ^ 93)
      as Hc by (vm_compute; reflexivity).
    generalize dependent (2 ^ n). generalize dependent (2 ^ 93).
    generalize dependent (2 ^ 53). intros. lia.
Qed.

(** In the correction range [int(correction * 10)] is defined and lies between
    -3276 and 3276. *)
Lemma int_of_scaled_correction_tight (v : float) :
  (- 327.6 <=? v)%float = true -> (v <=? 327.6)%float = true ->
  exists raw_value, int_of_float (v * 10)%float = Ok raw_value /\
                    -3276 <= raw_value <= 3276.
Proof.
  intros Hlo Hhi. unfold int_of_float. rewrite mul_spec.
  change (Prim2SF 10) with (S754_finite false 5629499534213120 (-49)).
  destruct (in_correction_range_shape v Hlo Hhi)
    as [[s Hs] | (s & m & e & Hv & Hd & He)].
  - rewrite Hs. exists 0. split; [reflexivity | lia].
  - destruct (in_correction_range_finite v s m e Hlo Hhi Hv) as [Hm Hme].
    rewrite Hv. unfold SF64mul, SFmul.
    pose proof (Zdigits2_mul m 5629499534213120) as Hmul.
    change (Zpos (digits2_pos 5629499534213120)) with 53 in Hmul.
    destruct (binary_round_aux_magnitude (xorb s false)
                (Zpos (m * 5629499534213120)) (e + -49) loc_Exact 13)
      as [Hr | (m' & e' & Hr & _)]; cbn [Zdigits2]; try lia.
    + rewrite Hr. exists 0. split; [reflexivity | lia].
    + destruct (binary_round_aux_value (xorb s false) (Zpos (m * 5629499534213120))
                  (e + -49) loc_Exact m' e' (Pos2Z.is_nonneg _) Hr) as [Hee Hval].
      rewrite Hr.
      exists (trunc_finite (xorb s false) m' e'). split; [reflexivity |].
      apply (trunc_finite_le (xorb s false) m' e' (e + -49) 3276);
        [exact Hee | lia |].
      apply Z.le_lt_trans with (1 := Hval).
      rewrite fexp_binary64. cbn [Zdigits2]. rewrite Pos2Z.inj_mul.
      apply scaled_correction_fits; [exact Hm | exact Hme | lia | lia].
Qed.

(** ** The codec on the correction range *)

(** X1: in the correction range the encoded value is the two's complement of
a count of tenths between -3276 and 3276: it lies in [0, 3276] or in
[62260, 65535]. *)
Theorem encode_temperature_correction_range (v : float) :
  (- 327.6 <=? v)%float = true -> (v <=? 327.6)%float = true ->
  exists raw, encode_temperature v = Ok raw /\
              (0 <= raw <= 3276 \/ 62260 <= raw <= 65535).
Proof.
  intros Hlo Hhi.
  destruct (int_of_scaled_correction_tight v Hlo Hhi) as (r & Hr & Hb).
  unfold encode_temperature. rewrite Hr. cbn [exc_bind].
  eexists. split; [reflexivity |].
  destruct (Z.ltb_spec r 0); lia.
Qed.

Lemma encode_temperature_correction_range_witness :
  exists raw, encode_temperature 327.6 = Ok raw /\
              (0 <= raw <= 3276 \/ 62260 <= raw <= 65535).
Proof.
  apply (encode_temperature_correction_range 327.6); reflexivity.
Defined.

(** X2: a correction in the range reads back as its tenths, truncated toward
zero: decoding the register [encode_temperature] produces gives
[int(correction * 10) / 10.0]. *)
Theorem correction_reads_back_truncated (v : float) :
  (- 327.6 <=? v)%float = true -> (v <=? 327.6)%float = true ->
  exists tenths raw,
    int_of_float (v * 10)%float = Ok tenths /\
    -3276 <= tenths <= 3276 /\
    encode_temperature v = Ok raw /\
    decode_temperature raw = Ok (Some (exact_float tenths / 10)%float).
Proof.
  intros Hlo Hhi.
  destruct (int_of_scaled_correction_tight v Hlo Hhi) as (r & Hr & Hb).
  exists r, (if r <? 0 then r + 65536 else r).
  split; [exact Hr |]. split; [exact Hb |].
  split; [unfold encode_temperature; rewrite Hr; reflexivity |].
  rewrite decode_temperature_register
    by (unfold is_register; destruct (Z.ltb_spec r 0); lia).
  unfold signed16.
  destruct (Z.ltb_spec r 0) as [Hneg | Hpos].
  - replace (r + 65536 =? 32768) with false by (symmetry; apply Z.eqb_neq; lia).
    replace (r + 65536 >? 32767) with true by (symmetry; apply Z.gtb_lt; lia).
    replace (r + 65536 - 65536) with r by lia. reflexivity.
  - replace (r =? 32768) with false by (symmetry; apply Z.eqb_neq; lia).
    replace (r >? 32767) with false
      by (symmetry; rewrite Z.gtb_ltb; apply Z.ltb_ge; lia).
    reflexivity.
Qed.

Lemma correction_reads_back_truncated_witness :
  encode_temperature 0.19 = Ok 1 /\
  decode_temperature 1 = Ok (Some 0.1%float).
Proof.
  destruct (correction_reads_back_truncated 0.19 eq_refl eq_refl)
    as (tenths & raw & Hint & _ & Henc & Hdec).
  vm_compute in Hint. injection Hint as <-.
  assert (raw = 1) as -> by (vm_compute in Henc; congruence).
  split; [exact Henc | exact Hdec].
Defined.

(** X3: every register value but the sentinel survives decoding and encoding
again, also outside the correction range; what it decodes to lies between
-3276.7 and 3276.7. *)
Theorem encode_decode_wire_round_trip (raw : Z) :
  is_register raw -> raw <> 0x8000 ->
  exists t, decode_temperature raw = Ok (Some t) /\
            encode_temperature t = Ok raw /\
            (- 3276.7 <=? t)%float = true /\ (t <=? 3276.7)%float = true.
Proof.
  intros Hraw Hne.
  pose proof (zrange_forallb
    (fun r => (r =? 0x8000) ||
              match decode_temperature r with
              | Ok (Some f) => same_encoded (encode_temperature f) r
                               && (- 3276.7 <=? f)%float && (f <=? 3276.7)%float
              | _ => false
              end)
    (Z.to_nat 65536) 0) as Hall.
  specialize (Hall ltac:(vm_compute; reflexivity) raw).
  unfold is_register in Hraw. rewrite Z2Nat.id in Hall by lia.
  specialize (Hall ltac:(lia)).
  apply orb_prop in Hall. destruct Hall as [Hs | Hd].
  - apply Z.eqb_eq in Hs. contradiction.
  - destruct (decode_temperature raw) as [[f | ] | e]; try discriminate.
    apply andb_prop in Hd. destruct Hd as [Hd Hhi].
    apply andb_prop in Hd. destruct Hd as [Hd Hlo].
    exists f. repeat split; try assumption. apply same_encoded_eq, Hd.
Qed.

Lemma encode_decode_wire_round_trip_witness :
  exists t, decode_temperature 65486 = Ok (Some t) /\
            encode_temperature t = Ok 65486 /\
            (- 3276.7 <=? t)%float = true /\ (t <=? 3276.7)%float = true.
Proof.
  apply (encode_decode_wire_round_trip 65486); [unfold is_register | ]; lia.
Defined.

(** ** Printing *)

Lemma print_lines_run (lines : list string) : forall w : world,
  print_lines lines w = (Ok tt, after_print w lines).
Proof.
  induction lines as [ | line rest IH]; intros w.
  - unfold after_print. rewrite app_nil_r. destruct w; reflexivity.
  - cbn [print_lines]. unfold bind, print at 1. rewrite IH.
    unfold after_print. cbn [calls stdout]. rewrite <- app_assoc. reflexivity.
Qed.

Lemma for_enumerate_print {A : Type} (body : Z -> A -> M unit)
    (line : Z -> A -> string) :
  (forall i x w, body i x w = print (line i x) w) ->
  forall (xs : list A) (i : Z) (w : world),
    for_enumerate body i xs w = (Ok tt, after_print w (enumerate_lines line i xs)).
Proof.
  intros Hbody. induction xs as [ | x rest IH]; intros i w.
  - unfold after_print. cbn [enumerate_lines]. rewrite app_nil_r.
    destruct w; reflexivity.
  - cbn [for_enumerate enumerate_lines]. unfold bind. rewrite Hbody.
    unfold print at 1. rewrite IH.
    unfold after_print. cbn [calls stdout]. rewrite <- app_assoc. reflexivity.
Qed.

(** Decoded register values print as the tenths the register holds. *)
Lemma format_1f_tenths (plus : bool) (x : float) (s : bool) (t : Z) :
  tenths_of x = Some (s, t) ->
  format_1f plus x =
    ((if s then "-" else if plus then "+" else "")
       ++ str_of_int (t / 10) ++ "." ++ str_of_int (t mod 10))%string.
Proof.
  unfold tenths_of, format_1f.
  destruct (Prim2SF x) as [s' | s' | | s' m e]; try discriminate;
    intros H; injection H as <- <-; reflexivity.
Qed.

Lemma format_1f_decoded (plus : bool) (raw : Z) (t : float) :
  is_register raw -> decode_temperature raw = Ok (Some t) ->
  format_1f plus t = tenths_text plus (signed16 raw).
Proof.
  intros Hraw Hdec.
  pose proof (zrange_forallb
    (fun r => match decode_temperature r with
              | Ok (Some f) =>
                  match tenths_of f with
                  | Some (s, t) => Bool.eqb s (signed16 r <? 0)
                                   && (t =? Z.abs (signed16 r))
                  | None => false
                  end
              | _ => true
              end)
    (Z.to_nat 65536) 0) as Hall.
  specialize (Hall ltac:(vm_compute; reflexivity) raw).
  unfold is_register in Hraw. rewrite Z2Nat.id in Hall by lia.
  specialize (Hall ltac:(lia)). rewrite Hdec in Hall.
  destruct (tenths_of t) as [[s z] | ] eqn:Et; [ | discriminate].
  apply andb_prop in Hall. destruct Hall as [Hs Hz].
  apply Bool.eqb_prop in Hs. apply Z.eqb_eq in Hz. subst s z.
  rewrite (format_1f_tenths plus t _ _ Et). reflexivity.
Qed.

Section MoreClientProperties.

Variable bus : transport.

Lemma read_temperature_corrections_run (self : R4DCB08Client) (w : world) :
  read_temperature_corrections bus self w =
    (Raise (mkExc Exception_
              ("Failed to read temperature corrections: " ++ read_rejection self)),
     w).
Proof.
  unfold read_temperature_corrections, try_except, bind,
    client_read_holding_registers, read_holding_registers, raise, read_rejection.
  destruct (client self); reflexivity.
Qed.

(** X4: [read_temperature_corrections] never reads the corrections: whatever
the state of the instance and whatever the device holds, it raises [Exception]
with the prefix of the operation, makes no transport call and returns no
value. On an instance that holds a transport object, the call of line 133
passes the count by position and is rejected before the transport is reached;
on an instance without one, the attribute lookup on [None] fails. So in
scenario A, on the connected instance. *)
Theorem read_temperature_corrections_never_reads (self : R4DCB08Client)
    (w : world) :
  read_temperature_corrections bus self w =
    (Raise (mkExc Exception_
              ("Failed to read temperature corrections: " ++ read_rejection self)),
     w) /\
  read_temperature_corrections bus_A connected_client empty_world =
    (Raise (mkExc Exception_
              ("Failed to read temperature corrections: "
                 ++ exc_str count_is_keyword_only)),
     empty_world).
Proof.
  split.
  - exact (read_temperature_corrections_run self w).
  - vm_compute. reflexivity.
Qed.

(** X5: [connect] never raises. When the constructor of the transport object
raises, [connect] prints the error and answers [False]; no transport call is
made and the instance is left as it was, its [client] still [None] when it was
new. When the object is built, from the instance's port, baud rate and
timeout, with no parity, 1 stop bit and 8 data bits, the instance holds it
from then on and [connect()] is called on it, once: the answer is the
transport's, or [False], after printing the error, when the transport
raises. *)
Theorem connect_spec (self : R4DCB08Client) (w : world) :
  let h := transport_object self in
  let self' := mkClient (port self) (address self) (baudrate self)
                        (timeout self) (Some h) in
  match on_construct bus h with
  | Raise e =>
      connect bus self w =
        (Ok (false, self),
         mkWorld (calls w) (stdout w ++ [("Connection error: " ++ exc_str e)%string]))
  | Ok _ =>
      exists ok lines,
        connect bus self w =
          (Ok (ok, self'), mkWorld (calls w ++ [Connect h]) (stdout w ++ lines)) /\
        match on_connect bus (calls w) h with
        | Ok answer => ok = answer /\ lines = []
        | Raise e =>
            ok = false /\ lines = [("Connection error: " ++ exc_str e)%string]
        end
  end.
Proof.
  intros h self'. subst self' h.
  unfold connect, try_except, bind, lift, client_connect, transact, print, ret,
    transport_object.
  cbn [client].
  destruct (on_construct bus _) as [[] | e0]; [ | reflexivity].
  destruct (on_connect bus (calls w) _) as [ok | e].
  - exists ok, []. rewrite app_nil_r.
    split; [reflexivity | split; reflexivity].
  - exists false, [("Connection error: " ++ exc_str e)%string].
    cbn [calls stdout].
    split; [reflexivity | split; reflexivity].
Qed.

(** *** The command functions *)

Lemma cmd_read_all_run (self : R4DCB08Client) (w : world) :
  cmd_read_all bus self w =
    match read_all_temperatures bus self w with
    | (Ok temperatures, w1) =>
        (Ok 0, after_print w1
                 ("R4DCB08 Temperature Readings:"%string :: dashes 35
                    :: enumerate_lines (value_line false "No sensor" "°C") 0
                                       temperatures))
    | (Raise e, w1) => (Ok 1, after_print w1 [("Error: " ++ exc_str e)%string])
    end.
Proof.
  unfold cmd_read_all, try_except. unfold bind at 1.
  destruct (read_all_temperatures bus self w) as [[temps | e] w1];
    [ | reflexivity].
  unfold bind, print at 1 2.
  rewrite (for_enumerate_print _ (value_line false "No sensor" "°C"))
    by (intros i [t | ] w'; reflexivity).
  unfold ret, after_print. cbn [calls stdout].
  rewrite <- !app_assoc. reflexivity.
Qed.

Lemma cmd_read_corrections_run (self : R4DCB08Client) (w : world) :
  cmd_read_corrections bus self w =
    match read_temperature_corrections bus self w with
    | (Ok corrections, w1) =>
        (Ok 0, after_print w1
                 ("Temperature Correction Values:"%string :: dashes 35
                    :: enumerate_lines (value_line true "No correction" "°C") 0
                                       corrections))
    | (Raise e, w1) => (Ok 1, after_print w1 [("Error: " ++ exc_str e)%string])
    end.
Proof.
  unfold cmd_read_corrections, try_except. unfold bind at 1.
  destruct (read_temperature_corrections bus self w) as [[cs | e] w1];
    [ | reflexivity].
  unfold bind, print at 1 2.
  rewrite (for_enumerate_print _ (value_line true "No correction" "°C"))
    by (intros i [t | ] w'; reflexivity).
  unfold ret, after_print. cbn [calls stdout].
  rewrite <- !app_assoc. reflexivity.
Qed.

Lemma cmd_read_channel_run (self : R4DCB08Client) (channel : Z) (w : world) :
  cmd_read_channel bus self channel w =
    match read_single_temperature bus self channel w with
    | (Ok temperature, w1) =>
        (Ok 0, after_print w1
                 [value_line false "No sensor connected" "°C" channel temperature])
    | (Raise e, w1) => (Ok 1, after_print w1 [("Error: " ++ exc_str e)%string])
    end.
Proof.
  unfold cmd_read_channel, try_except. unfold bind at 1.
  destruct (read_single_temperature bus self channel w) as [[[t | ] | e] w1];
    reflexivity.
Qed.

Lemma cmd_set_correction_run (self : R4DCB08Client) (channel : Z)
    (correction : float) (w : world) :
  cmd_set_correction bus self channel correction w =
    match set_temperature_correction bus self channel correction w with
    | (Ok _, w1) =>
        (Ok 0, after_print w1
                 [("Successfully set correction for channel "
                     ++ str_of_int channel ++ " to "
                     ++ format_1f true correction ++ "°C")%string;
                  "Note: The correction will be applied to future temperature readings."%string])
    | (Raise e, w1) => (Ok 1, after_print w1 [("Error: " ++ exc_str e)%string])
    end.
Proof.
  unfold cmd_set_correction, try_except. unfold bind at 1.
  destruct (set_temperature_correction bus self channel correction w)
    as [[[] | e] w1]; [ | reflexivity].
  unfold bind, print, ret, after_print. cbn [calls stdout].
  rewrite <- !app_assoc. reflexivity.
Qed.

(** X6: each of the four command functions reports on its operation: it
never raises, answers 1 exactly when the operation raised, then prints
[Error: ] and the message, and makes no transport call of its own. *)
Theorem commands_exit_codes (self : R4DCB08Client) (channel : Z)
    (correction : float) (w : world) :
  reports (cmd_read_all bus self w) (read_all_temperatures bus self w) /\
  reports (cmd_read_channel bus self channel w)
          (read_single_temperature bus self channel w) /\
  reports (cmd_set_correction bus self channel correction w)
          (set_temperature_correction bus self channel correction w) /\
  reports (cmd_read_corrections bus self w)
          (read_temperature_corrections bus self w).
Proof.
  unfold reports.
  rewrite cmd_read_all_run, cmd_read_channel_run, cmd_set_correction_run,
    cmd_read_corrections_run.
  destruct (read_all_temperatures bus self w) as [[v1 | e1] w1],
    (read_single_temperature bus self channel w) as [[v2 | e2] w2],
    (set_temperature_correction bus self channel correction w) as [[v3 | e3] w3],
    (read_temperature_corrections bus self w) as [[v4 | e4] w4];
    cbn [fst snd raised after_print calls stdout];
    repeat split; try discriminate;
      intros e He; injection He as <-; reflexivity.
Qed.

(** X7: [cmd_read_all] never lists a temperature: whatever the state of the
instance and whatever the device holds, it prints one line, the error of the
read that did not take place, and answers 1, without any transport call. On
an instance that holds a transport object the error is the rejection of the
call of line 88. *)
Theorem cmd_read_all_fails (self : R4DCB08Client) (w : world) :
  cmd_read_all bus self w =
    (Ok 1,
     mkWorld (calls w)
             (stdout w ++ [("Error: Failed to read temperatures: "
                              ++ read_rejection self)%string])).
Proof.
  rewrite cmd_read_all_run, read_all_temperatures_run. reflexivity.
Qed.

(** X8: [cmd_read_corrections] never lists a correction, for the same reason:
it prints the error of the read that did not take place and answers 1,
without any transport call; on an instance that holds a transport object the
error is the rejection of the call of line 133. *)
Theorem cmd_read_corrections_fails (self : R4DCB08Client) (w : world) :
  cmd_read_corrections bus self w =
    (Ok 1,
     mkWorld (calls w)
             (stdout w ++ [("Error: Failed to read temperature corrections: "
                              ++ read_rejection self)%string])).
Proof.
  rewrite cmd_read_corrections_run, read_temperature_corrections_run.
  reflexivity.
Qed.

(** X9: [cmd_read_channel] never shows a temperature: it always prints one
line, an error, and answers 1, without any transport call. With a channel
outside [0, 7] the error is the channel's; with a channel in [0, 7] it is
that of the read that did not take place, on an instance that holds a
transport object the rejection of the call of line 102. *)
Theorem cmd_read_channel_fails (self : R4DCB08Client) (w : world) (channel : Z) :
  (channel < 0 \/ 7 < channel ->
     cmd_read_channel bus self channel w =
       (Ok 1, mkWorld (calls w) (stdout w ++ ["Error: Channel must be 0-7"%string]))) /\
  (0 <= channel <= 7 ->
     cmd_read_channel bus self channel w =
       (Ok 1,
        mkWorld (calls w)
                (stdout w ++ [("Error: Failed to read temperature from channel "
                                 ++ str_of_int channel ++ ": "
                                 ++ read_rejection self)%string]))).
Proof.
  rewrite cmd_read_channel_run. split.
  - intros Hout.
    rewrite (read_single_temperature_out_of_range bus self w channel Hout).
    reflexivity.
  - intros Hch.
    rewrite (read_single_temperature_run bus self w channel Hch).
    reflexivity.
Qed.

(** X10: [cmd_set_correction] prints the channel error, or the range error,
and answers 1 without a transport call when a check fails; with a channel in
[0, 7] and a correction in the range, on a connected client whose device
acknowledges, it writes the encoded correction to register 0x0008 + channel,
prints the confirmation with the correction to one decimal and the note, and
answers 0. *)
Theorem cmd_set_correction_spec (self : R4DCB08Client) (w : world) (channel : Z)
    (correction : float) :
  let in_range :=
    (- 327.6 <=? correction)%float && (correction <=? 327.6)%float in
  (channel < 0 \/ 7 < channel ->
     cmd_set_correction bus self channel correction w =
       (Ok 1, mkWorld (calls w) (stdout w ++ ["Error: Channel must be 0-7"%string]))) /\
  (0 <= channel <= 7 -> in_range = false ->
     cmd_set_correction bus self channel correction w =
       (Ok 1,
        mkWorld (calls w)
                (stdout w
                   ++ ["Error: Correction must be between -327.6 and +327.6 °C"%string]))) /\
  (0 <= channel <= 7 -> in_range = true ->
     forall h, client self = Some h ->
     exists raw,
       encode_temperature correction = Ok raw /\
       forall r,
         on_write_register bus (calls w) (0x0008 + channel) raw (address self) = Ok r ->
         isError r = false ->
         cmd_set_correction bus self channel correction w =
           (Ok 0,
            mkWorld (calls w ++ [WriteRegister (0x0008 + channel) raw (address self)])
                    (stdout w
                       ++ [("Successfully set correction for channel "
                              ++ str_of_int channel ++ " to "
                              ++ format_1f true correction ++ "°C")%string;
                           "Note: The correction will be applied to future temperature readings."%string]))).
Proof.
  intros in_range. subst in_range. rewrite cmd_set_correction_run.
  split; [ | split].
  - intros Hout. unfold set_temperature_correction.
    replace ((0 <=? channel) && (channel <=? 7)) with false; [reflexivity |].
    symmetry. apply andb_false_iff.
    destruct Hout; [left; apply Z.leb_gt | right; apply Z.leb_gt]; lia.
  - intros Hch Hout. unfold set_temperature_correction.
    replace ((0 <=? channel) && (channel <=? 7)) with true
      by (symmetry; apply andb_true_intro; split; apply Z.leb_le; lia).
    rewrite Hout. reflexivity.
  - intros Hch Hin h Hc.
    apply andb_prop in Hin. destruct Hin as [Hlo Hhi].
    destruct (encode_temperature_correction correction Hlo Hhi)
      as (raw & Henc & _).
    exists raw. split; [exact Henc |].
    intros r Ha Herr.
    rewrite (set_temperature_correction_run bus self h w channel correction raw
               Hc Hch Hlo Hhi Henc), Ha, Herr.
    reflexivity.
Qed.

(** *** [main] *)

Lemma one_transaction_none (w : world) : one_transaction_at_most w w.
Proof.
  split; [ | reflexivity]. exists []. rewrite app_nil_r.
  repeat split; [cbn; lia | constructor].
Qed.

Lemma one_transaction_read_all (self : R4DCB08Client) (w : world) :
  one_transaction_at_most w (snd (read_all_temperatures bus self w)).
Proof.
  rewrite read_all_temperatures_run. apply one_transaction_none.
Qed.

Lemma one_transaction_read_corrections (self : R4DCB08Client) (w : world) :
  one_transaction_at_most w (snd (read_temperature_corrections bus self w)).
Proof.
  rewrite read_temperature_corrections_run. apply one_transaction_none.
Qed.

Lemma one_transaction_read_single (self : R4DCB08Client) (channel : Z)
    (w : world) :
  one_transaction_at_most w (snd (read_single_temperature bus self channel w)).
Proof.
  destruct ((0 <=? channel) && (channel <=? 7)) eqn:Ech.
  - apply andb_prop in Ech. destruct Ech as [H0 H7]. apply Z.leb_le in H0, H7.
    rewrite (read_single_temperature_run bus self w channel (conj H0 H7)).
    apply one_transaction_none.
  - unfold read_single_temperature. rewrite Ech. apply one_transaction_none.
Qed.

Lemma one_transaction_set_correction (self : R4DCB08Client)
    (h : ModbusSerialClient) (channel : Z) (correction : float) (w : world) :
  client self = Some h ->
  one_transaction_at_most w
    (snd (set_temperature_correction bus self channel correction w)).
Proof.
  intros Hc.
  destruct ((0 <=? channel) && (channel <=? 7)) eqn:Ech.
  - destruct ((- 327.6 <=? correction)%float && (correction <=? 327.6)%float)
      eqn:Hin.
    + apply andb_prop in Ech. destruct Ech as [H0 H7]. apply Z.leb_le in H0, H7.
      apply andb_prop in Hin. destruct Hin as [Hlo Hhi].
      destruct (encode_temperature_correction correction Hlo Hhi)
        as (raw & Henc & _).
      rewrite (set_temperature_correction_run bus self h w channel correction raw
                 Hc (conj H0 H7) Hlo Hhi Henc).
      cbn [snd]. split; [ | reflexivity].
      exists [WriteRegister (8 + channel) raw (address self)].
      repeat split; [cbn; lia | repeat constructor].
    + unfold set_temperature_correction. rewrite Ech, Hin.
      apply one_transaction_none.
  - unfold set_temperature_correction. rewrite Ech. apply one_transaction_none.
Qed.

Lemma command_outcome_of {A : Type} (w : world) (operation : exc A * world)
    (success : A -> list string) (command : exc Z * world) :
  one_transaction_at_most w (snd operation) ->
  command =
    match operation with
    | (Ok v, w1) => (Ok 0, after_print w1 (success v))
    | (Raise e, w1) => (Ok 1, after_print w1 [("Error: " ++ exc_str e)%string])
    end ->
  command_outcome w command.
Proof.
  intros [Hmade Hout] ->.
  destruct operation as [[v | e] w1]; cbn [snd] in *;
    (split; [auto | split; [exact Hmade |]]);
    cbn [snd after_print stdout]; rewrite Hout; eexists; reflexivity.
Qed.

Lemma dispatch_outcome (command : string) (args : Namespace)
    (self : R4DCB08Client) (h : ModbusSerialClient) (w : world) :
  client self = Some h ->
  command_outcome w
    ((if String.eqb command "read-all" then cmd_read_all bus self
      else if String.eqb command "read-channel"
      then cmd_read_channel bus self (args_channel args)
      else if String.eqb command "set-correction"
      then cmd_set_correction bus self (args_channel args) (args_correction args)
      else if String.eqb command "read-corrections"
      then cmd_read_corrections bus self
      else (print ("Unknown command: " ++ command) ;; ret 1)%py) w).
Proof.
  intros Hc.
  destruct (String.eqb command "read-all").
  { apply (command_outcome_of w (read_all_temperatures bus self w)
             (fun temperatures =>
                "R4DCB08 Temperature Readings:"%string :: dashes 35
                  :: enumerate_lines (value_line false "No sensor" "°C") 0
                                     temperatures));
      [apply one_transaction_read_all | apply cmd_read_all_run]. }
  destruct (String.eqb command "read-channel").
  { apply (command_outcome_of w
             (read_single_temperature bus self (args_channel args) w)
             (fun temperature =>
                [value_line false "No sensor connected" "°C" (args_channel args)
                            temperature]));
      [apply one_transaction_read_single | apply cmd_read_channel_run]. }
  destruct (String.eqb command "set-correction").
  { apply (command_outcome_of w
             (set_temperature_correction bus self (args_channel args)
                                         (args_correction args) w)
             (fun _ =>
                [("Successfully set correction for channel "
                    ++ str_of_int (args_channel args) ++ " to "
                    ++ format_1f true (args_correction args) ++ "°C")%string;
                 "Note: The correction will be applied to future temperature readings."%string]));
      [apply (one_transaction_set_correction self h (args_channel args)
                (args_correction args) w Hc)
      | apply cmd_set_correction_run]. }
  destruct (String.eqb command "read-corrections").
  { apply (command_outcome_of w (read_temperature_corrections bus self w)
             (fun corrections =>
                "Temperature Correction Values:"%string :: dashes 35
                  :: enumerate_lines (value_line true "No correction" "°C") 0
                                     corrections));
      [apply one_transaction_read_corrections | apply cmd_read_corrections_run]. }
  unfold bind, print, ret. cbn.
  split; [auto | split].
  - exists []. rewrite app_nil_r. repeat split; [cbn; lia | constructor].
  - eexists. reflexivity.
Qed.

Lemma main_connected (help command : string) (args : Namespace) (w : world) :
  args_command args = Some command -> command <> ""%string ->
  1 <= args_address args <= 247 ->
  let h := main_transport_object args in
  let self := mkClient (args_port args) (args_address args) (args_baudrate args)
                       (args_timeout args) (Some h) in
  main bus help args w =
    match on_construct bus h with
    | Raise e =>
        (Ok 1, mkWorld (calls w)
                       (stdout w ++ ("Connection error: " ++ exc_str e)%string
                          :: connect_failure_lines args))
    | Ok _ =>
        match on_connect bus (calls w) h with
        | Ok true =>
            try_finally
              (if String.eqb command "read-all" then cmd_read_all bus self
               else if String.eqb command "read-channel"
               then cmd_read_channel bus self (args_channel args)
               else if String.eqb command "set-correction"
               then cmd_set_correction bus self (args_channel args)
                                       (args_correction args)
               else if String.eqb command "read-corrections"
               then cmd_read_corrections bus self
               else (print ("Unknown command: " ++ command) ;; ret 1)%py)
              (disconnect bus self) (after_call w (Connect h))
        | Ok false =>
            (Ok 1, mkWorld (calls w ++ [Connect h])
                           (stdout w ++ connect_failure_lines args))
        | Raise e =>
            (Ok 1, mkWorld (calls w ++ [Connect h])
                           (stdout w ++ ("Connection error: " ++ exc_str e)%string
                              :: connect_failure_lines args))
        end
    end.
Proof.
  intros Hcmd Hne Haddr h self. subst h self.
  unfold main. rewrite Hcmd.
  replace (String.eqb command "") with false
    by (symmetry; apply String.eqb_neq, Hne).
  replace ((1 <=? args_address args) && (args_address args <=? 247)) with true
    by (symmetry; apply andb_true_intro; split; apply Z.leb_le; lia).
  cbn [negb]. unfold bind at 1.
  unfold connect, try_except, bind at 1, lift, __init__, main_transport_object.
  cbn [client port baudrate timeout address calls stdout].
  destruct (on_construct bus _) as [[] | e0].
  - unfold bind at 1, client_connect, transact.
    destruct (on_connect bus (calls w) _) as [[ | ] | e].
    + reflexivity.
    + cbn [negb ret]. unfold bind. rewrite print_lines_run. reflexivity.
    + unfold bind, print, ret. cbn [negb]. unfold bind. rewrite print_lines_run.
      unfold after_print, connect_failure_lines. cbn [calls stdout].
      rewrite <- app_assoc. reflexivity.
  - unfold bind, print, ret. cbn [negb]. unfold bind. rewrite print_lines_run.
    unfold after_print, connect_failure_lines. cbn [calls stdout].
    rewrite <- app_assoc. reflexivity.
Qed.

(** X11: [main] answers 1 without any transport call when no command was
given (it prints the help) and when the device address is outside [1, 247]
(it prints the address error). *)
Theorem main_validates_before_connecting (help : string) (args : Namespace)
    (w : world) :
  (args_command args = None \/ args_command args = Some ""%string ->
     main bus help args w = (Ok 1, mkWorld (calls w) (stdout w ++ [help]))) /\
  (forall command,
     args_command args = Some command -> command <> ""%string ->
     args_address args < 1 \/ 247 < args_address args ->
     main bus help args w =
       (Ok 1,
        mkWorld (calls w)
                (stdout w ++ ["Error: Device address must be between 1 and 247"%string]))).
Proof.
  split.
  - intros [Hcmd | Hcmd]; unfold main; rewrite Hcmd; reflexivity.
  - intros command Hcmd Hne Haddr. unfold main. rewrite Hcmd.
    replace (String.eqb command "") with false
      by (symmetry; apply String.eqb_neq, Hne).
    replace ((1 <=? args_address args) && (args_address args <=? 247)) with false;
      [reflexivity |].
    symmetry. apply andb_false_iff.
    destruct Haddr; [left; apply Z.leb_gt | right; apply Z.leb_gt]; lia.
Qed.

(** X12: when [connect] fails, [main] prints the troubleshooting lines and
answers 1, and nothing is closed. When the transport object was built and the
transport answers [False] or raises, the attempt to connect is the only
transport call: no register is read or written. When the constructor of the
transport object raises, there is no transport call at all. *)
Theorem main_connect_failure (help command : string) (args : Namespace)
    (w : world) :
  args_command args = Some command -> command <> ""%string ->
  1 <= args_address args <= 247 ->
  let h := main_transport_object args in
  (on_construct bus h = Ok tt -> on_connect bus (calls w) h = Ok false ->
     main bus help args w =
       (Ok 1, mkWorld (calls w ++ [Connect h])
                      (stdout w ++ connect_failure_lines args))) /\
  (on_construct bus h = Ok tt ->
   forall e, on_connect bus (calls w) h = Raise e ->
     main bus help args w =
       (Ok 1, mkWorld (calls w ++ [Connect h])
                      (stdout w ++ ("Connection error: " ++ exc_str e)%string
                         :: connect_failure_lines args))) /\
  (forall e, on_construct bus h = Raise e ->
     main bus help args w =
       (Ok 1, mkWorld (calls w)
                      (stdout w ++ ("Connection error: " ++ exc_str e)%string
                         :: connect_failure_lines args))).
Proof.
  intros Hcmd Hne Haddr h.
  rewrite (main_connected help command args w Hcmd Hne Haddr). fold h.
  split; [intros -> -> | split; [intros -> e -> | intros e ->]]; reflexivity.
Qed.

(** X13: once [connect] has answered [True], the transport object built and
the transport answering [True], [main] makes at most one register transaction
and then closes the transport, as its last call, whatever the command did; it
answers 0 or 1 when closing succeeds, and what closing raises otherwise. *)
Theorem main_closes_the_connection (help command : string) (args : Namespace)
    (w : world) :
  args_command args = Some command -> command <> ""%string ->
  1 <= args_address args <= 247 ->
  let h := main_transport_object args in
  on_construct bus h = Ok tt -> on_connect bus (calls w) h = Ok true ->
  exists made lines,
    snd (main bus help args w) =
      mkWorld (calls w ++ Connect h :: made ++ [Close]) (stdout w ++ lines) /\
    (List.length made <= 1)%nat /\ Forall is_transaction made /\
    match on_close bus (calls w ++ Connect h :: made) with
    | Ok _ => fst (main bus help args w) = Ok 0 \/
              fst (main bus help args w) = Ok 1
    | Raise e => fst (main bus help args w) = Raise e
    end.
Proof.
  intros Hcmd Hne Haddr h Hbuilt Hok.
  rewrite (main_connected help command args w Hcmd Hne Haddr). fold h.
  rewrite Hbuilt, Hok.
  set (self := mkClient _ _ _ _ (Some h)).
  pose proof (dispatch_outcome command args self h (after_call w (Connect h))
                eq_refl) as Hd.
  unfold try_finally.
  match type of Hd with
  | command_outcome _ ?d => destruct d as [r w1]
  end.
  destruct Hd as (Hrc & (made & Hcalls & Hlen & Htr) & (lines & Hout)).
  cbn [fst snd after_call calls stdout] in Hrc, Hcalls, Hout.
  unfold disconnect, transact. cbn [client self].
  exists made, lines.
  rewrite Hcalls, Hout, <- !app_assoc. cbn [app].
  destruct (on_close bus (calls w ++ Connect h :: made)) as [[] | e];
    cbn [fst snd]; auto.
Qed.

(** [main] once connected, when the command has printed one line, answered 1
and made no transport call. *)
Lemma main_failed_command (command : M Z) (self : R4DCB08Client)
    (h : ModbusSerialClient) (line : string) (w : world) :
  client self = Some h ->
  command w = (Ok 1, mkWorld (calls w) (stdout w ++ [line])) ->
  try_finally command (disconnect bus self) w =
    (match on_close bus (calls w) with
     | Ok _ => Ok 1
     | Raise e => Raise e
     end,
     mkWorld (calls w ++ [Close]) (stdout w ++ [line])).
Proof.
  intros Hc Hrun. unfold try_finally. rewrite Hrun.
  unfold disconnect, transact. rewrite Hc. cbn [calls stdout].
  destruct (on_close bus (calls w)) as [[] | e]; reflexivity.
Qed.

(** X16: the three reading commands of the program never show a value. Once
the transport object is built and [connect] has answered [True], [main] with
[read-all], with [read-corrections], or with [read-channel] and a channel in
[0, 7], prints one line, the error of the rejected read, and closes the
transport: its transport calls are the connection and the closing, no
register is read; it answers 1 when closing succeeds, and what closing raises
otherwise. *)
Theorem main_read_commands_fail (help : string) (args : Namespace) (w : world) :
  1 <= args_address args <= 247 ->
  let h := main_transport_object args in
  on_construct bus h = Ok tt -> on_connect bus (calls w) h = Ok true ->
  let outcome := fun operation : string =>
    (match on_close bus (calls w ++ [Connect h]) with
     | Ok _ => Ok 1
     | Raise e => Raise e
     end,
     mkWorld (calls w ++ [Connect h; Close])
             (stdout w ++ [("Error: Failed to read " ++ operation ++ ": "
                              ++ exc_str count_is_keyword_only)%string])) in
  (args_command args = Some "read-all"%string ->
     main bus help args w = outcome "temperatures"%string) /\
  (args_command args = Some "read-corrections"%string ->
     main bus help args w = outcome "temperature corrections"%string) /\
  (args_command args = Some "read-channel"%string ->
   0 <= args_channel args <= 7 ->
     main bus help args w =
       outcome ("temperature from channel " ++ str_of_int (args_channel args))%string).
Proof.
  intros Haddr h Hbuilt Hok outcome. subst outcome.
  set (self := mkClient (args_port args) (args_address args) (args_baudrate args)
                        (args_timeout args) (Some h)).
  assert (forall command line,
            command (after_call w (Connect h)) =
              (Ok 1, after_print (after_call w (Connect h)) [line]) ->
            try_finally command (disconnect bus self) (after_call w (Connect h)) =
              (match on_close bus (calls w ++ [Connect h]) with
               | Ok _ => Ok 1
               | Raise e => Raise e
               end,
               mkWorld (calls w ++ [Connect h; Close]) (stdout w ++ [line])))
    as Hfinally.
  { intros command line Hrun.
    rewrite (main_failed_command command self h line _ eq_refl Hrun).
    cbn [after_call calls stdout]. rewrite <- app_assoc. reflexivity. }
  split; [ | split].
  - intros Hcmd.
    rewrite (main_connected help _ args w Hcmd ltac:(discriminate) Haddr).
    fold h self. rewrite Hbuilt, Hok. cbn [String.eqb Ascii.eqb Bool.eqb].
    apply Hfinally.
    rewrite cmd_read_all_run, read_all_temperatures_run. reflexivity.
  - intros Hcmd.
    rewrite (main_connected help _ args w Hcmd ltac:(discriminate) Haddr).
    fold h self. rewrite Hbuilt, Hok. cbn [String.eqb Ascii.eqb Bool.eqb].
    apply Hfinally.
    rewrite cmd_read_corrections_run, read_temperature_corrections_run.
    reflexivity.
  - intros Hcmd Hch.
    rewrite (main_connected help _ args w Hcmd ltac:(discriminate) Haddr).
    fold h self. rewrite Hbuilt, Hok. cbn [String.eqb Ascii.eqb Bool.eqb].
    apply Hfinally.
    rewrite cmd_read_channel_run,
      (read_single_temperature_run bus self _ _ Hch).
    reflexivity.
Qed.

End MoreClientProperties.

(** ** The example script *)

Lemma prints_only_print (line : string) : prints_only (print line).
Proof. intros w. exists [line]. reflexivity. Qed.

Lemma prints_only_ret {A : Type} (v : A) : prints_only (ret v).
Proof.
  intros w. exists []. unfold after_print. rewrite app_nil_r.
  destruct w; reflexivity.
Qed.

Lemma prints_only_lift {A : Type} (x : exc A) : prints_only (lift x).
Proof.
  intros w. exists []. unfold after_print. rewrite app_nil_r.
  destruct w; reflexivity.
Qed.

Lemma prints_only_bind {A B : Type} (m : M A) (k : A -> M B) :
  prints_only m -> (forall v, prints_only (k v)) -> prints_only (bind m k).
Proof.
  intros Hm Hk w. unfold bind.
  destruct (Hm w) as [l1 H1].
  destruct (m w) as [[v | e] w1]; cbn [snd] in H1; subst w1.
  - destruct (Hk v (after_print w l1)) as [l2 H2].
    exists (l1 ++ l2). rewrite H2. unfold after_print. cbn [calls stdout].
    rewrite app_assoc. reflexivity.
  - exists l1. reflexivity.
Qed.

Lemma prints_only_for_enumerate {A : Type} (body : Z -> A -> M unit) :
  (forall i x, prints_only (body i x)) ->
  forall xs i, prints_only (for_enumerate body i xs).
Proof.
  intros Hbody. induction xs as [ | x rest IH]; intros i; cbn [for_enumerate].
  - apply prints_only_ret.
  - apply prints_only_bind; [apply Hbody | intros _; apply IH].
Qed.

Lemma for_enumerate_print_on {A : Type} (P : A -> Prop) (body : Z -> A -> M unit)
    (line : Z -> A -> string) :
  (forall i x w, P x -> body i x w = print (line i x) w) ->
  forall (xs : list A) (i : Z) (w : world),
    Forall P xs ->
    for_enumerate body i xs w = (Ok tt, after_print w (enumerate_lines line i xs)).
Proof.
  intros Hbody. induction xs as [ | x rest IH]; intros i w Hall.
  - unfold after_print. cbn [enumerate_lines]. rewrite app_nil_r.
    destruct w; reflexivity.
  - inversion Hall as [ | ? ? Hx Hrest]; subst.
    cbn [for_enumerate enumerate_lines]. unfold bind. rewrite (Hbody _ _ _ Hx).
    unfold print at 1. rewrite (IH _ _ Hrest).
    unfold after_print. cbn [calls stdout]. rewrite <- app_assoc. reflexivity.
Qed.

Section ScriptProperties.

Variable bus : transport.

(** The body of the script's loop: decode, then print. *)
Lemma script_loop_body_prints (i raw_temp : Z) :
  prints_only
    (temperature <- lift (modbus_py.decode_temperature raw_temp) ;;
     match temperature with
     | Some t => print ("Channel " ++ str_of_int i ++ ": "
                          ++ format_1f false t ++ "Â°C")
     | None => print ("Channel " ++ str_of_int i ++ ": No sensor")
     end)%py.
Proof.
  apply prints_only_bind; [apply prints_only_lift |].
  intros [t | ]; apply prints_only_print.
Qed.

(** One transport call, then printing only, all inside a [try] whose handler
prints: the outcome is normal, one call was made, lines were printed. *)
Lemma try_call_then_print {A : Type} (req : request)
    (answer : list request -> exc A) (k : A -> M unit)
    (handler : exception -> M unit) (w : world) :
  (forall v, prints_only (k v)) ->
  (forall e w', exists line, handler e w' = (Ok tt, after_print w' [line])) ->
  exists lines,
    try_except (bind (transact req answer) k) handler w =
      (Ok tt, mkWorld (calls w ++ [req]) (stdout w ++ lines)).
Proof.
  intros Hk Hh. unfold try_except, bind, transact.
  destruct (answer (calls w)) as [v | e].
  - destruct (Hk v (mkWorld (calls w ++ [req]) (stdout w))) as [l Hl].
    destruct (k v _) as [[[] | e] w3]; cbn [snd] in Hl; subst w3.
    + exists l. reflexivity.
    + destruct (Hh e (after_print (mkWorld (calls w ++ [req]) (stdout w)) l))
        as [line ->].
      exists (l ++ [line]). unfold after_print. cbn [calls stdout].
      rewrite app_assoc. reflexivity.
  - destruct (Hh e (mkWorld (calls w ++ [req]) (stdout w))) as [line ->].
    exists [line]. reflexivity.
Qed.

(** [finally:] closing the port and printing a line, after a block that ended
normally. *)
Lemma try_finally_close (m : M unit) (line : string) (w w1 : world) :
  m w = (Ok tt, w1) ->
  try_finally m (transact Close (on_close bus) ;; print line)%py w =
    match on_close bus (calls w1) with
    | Ok _ => (Ok tt, mkWorld (calls w1 ++ [Close]) (stdout w1 ++ [line]))
    | Raise e => (Raise e, mkWorld (calls w1 ++ [Close]) (stdout w1))
    end.
Proof.
  intros Hm. unfold try_finally. rewrite Hm.
  unfold bind, transact, print.
  destruct (on_close bus (calls w1)) as [[] | e]; reflexivity.
Qed.

(** X14: the script of [modbus_py.py]: an exception of the constructor
propagates before anything is called or printed, and an exception of [connect]
propagates; after [connect] answered [False] five lines are printed and
nothing else is called; after it answered [True] the calls are exactly the
connection, one read of 8 registers from address 0 of device 1, and the
closing of the port, whatever the read answered or raised, and the last line
printed is the disconnection notice unless closing raised. *)
Theorem script_main_closes_the_port (w : world) :
  let c := script_transport_object in
  match on_construct bus c with
  | Raise e => modbus_py_script.main bus w = (Raise e, w)
  | Ok _ =>
  match on_connect bus (calls w) c with
  | Raise e => modbus_py_script.main bus w = (Raise e, after_call w (Connect c))
  | Ok false =>
      modbus_py_script.main bus w =
        (Ok tt,
         mkWorld (calls w ++ [Connect c])
                 (stdout w ++ ["Failed to connect to R4DCB08 device!"%string;
                               "Check:"%string;
                               "1. Device is powered and connected"%string;
                               "2. Serial port path is correct"%string;
                               "3. No other program is using the port"%string]))
  | Ok true =>
      exists lines,
        snd (modbus_py_script.main bus w) =
          mkWorld (calls w ++ [Connect c; ReadHoldingRegisters 0 8 1; Close])
                  (stdout w ++ "Connected to R4DCB08 Temperature Collector"%string
                     :: lines) /\
        match on_close bus (calls w ++ [Connect c; ReadHoldingRegisters 0 8 1]) with
        | Ok _ =>
            fst (modbus_py_script.main bus w) = Ok tt /\
            exists before,
              lines = before ++ [(nl ++ "Disconnected from device.")%string]
        | Raise e => fst (modbus_py_script.main bus w) = Raise e
        end
  end
  end.
Proof.
  intros c. subst c.
  remember (modbus_py_script.main bus w) as outcome eqn:Hrun.
  unfold modbus_py_script.main in Hrun. cbv zeta in Hrun.
  unfold bind at 1, lift at 1 in Hrun.
  fold script_transport_object in Hrun.
  destruct (on_construct bus script_transport_object) as [[] | e0];
    [ | exact Hrun].
  unfold bind at 1, transact at 1 in Hrun.
  destruct (on_connect bus (calls w) script_transport_object) as [[ | ] | e];
    cbn [negb] in Hrun.
  - unfold bind at 1, print at 1, read_holding_registers in Hrun.
    cbn [calls stdout] in Hrun.
    match type of Hrun with
    | context [try_finally (try_except (bind (transact ?req ?ans) ?k) ?h) _ ?w2] =>
        destruct (try_call_then_print req ans k h w2) as [lines Hbody]
    end.
    { intros r. destruct (isError r); [apply prints_only_print |].
      repeat (apply prints_only_bind; [ | intros _]);
        try apply prints_only_print.
      apply prints_only_for_enumerate. intros i x.
      apply script_loop_body_prints. }
    { intros e w'. eexists. reflexivity. }
    rewrite (try_finally_close _ _ _ _ Hbody) in Hrun.
    cbn [calls stdout] in Hrun. rewrite <- !app_assoc in Hrun. cbn [app] in Hrun.
    destruct (on_close bus _) as [[] | e]; subst outcome; cbn [fst snd].
    + exists (lines ++ [(nl ++ "Disconnected from device.")%string]).
      split; [reflexivity |].
      split; [reflexivity | exists lines; reflexivity].
    + exists lines. split; reflexivity.
  - rewrite print_lines_run in Hrun. exact Hrun.
  - exact Hrun.
Qed.

Lemma script_loop_body_line (i raw : Z) (w : world) :
  is_register raw ->
  (temperature <- lift (modbus_py.decode_temperature raw) ;;
   match temperature with
   | Some t => print ("Channel " ++ str_of_int i ++ ": "
                        ++ format_1f false t ++ "Â°C")
   | None => print ("Channel " ++ str_of_int i ++ ": No sensor")
   end)%py w =
  print (reading_line false "No sensor" "Â°C" i raw) w.
Proof.
  intros Hraw. unfold bind, lift.
  change (modbus_py.decode_temperature raw) with (decode_temperature raw).
  rewrite (decode_temperature_register raw Hraw). unfold reading_line.
  destruct (raw =? 0x8000) eqn:Es; [reflexivity |].
  rewrite (format_1f_decoded false raw); [reflexivity | exact Hraw |].
  rewrite (decode_temperature_register raw Hraw), Es. reflexivity.
Qed.

(** X15: what the script prints when the transport object is built, the
connection made and the device answers with register values: the connection
notice, the title, the rule, one line per register
showing its signed tenths with one decimal ([No sensor] for 0x8000), the raw
register values as a list, and the disconnection notice. *)
Theorem script_main_listing (w : world) (r : pdu) :
  let c := script_transport_object in
  on_construct bus c = Ok tt -> on_connect bus (calls w) c = Ok true ->
  on_read_holding_registers bus (calls w ++ [Connect c]) 0 8 1 = Ok r ->
  isError r = false -> Forall is_register (registers r) ->
  on_close bus (calls w ++ [Connect c; ReadHoldingRegisters 0 8 1]) = Ok tt ->
  modbus_py_script.main bus w =
    (Ok tt,
     mkWorld (calls w ++ [Connect c; ReadHoldingRegisters 0 8 1; Close])
             (stdout w
                ++ "Connected to R4DCB08 Temperature Collector"%string
                :: (nl ++ "R4DCB08 Temperature Readings:")%string
                :: dashes 35
                :: enumerate_lines (reading_line false "No sensor" "Â°C") 0
                                   (registers r)
                ++ [(nl ++ "Raw register values: "
                        ++ str_of_int_list (registers r))%string;
                    (nl ++ "Disconnected from device.")%string])).
Proof.
  intros c Hbuilt Hconn Hread Herr Hregs Hclose. subst c.
  unfold modbus_py_script.main. cbv zeta. unfold bind at 1, lift at 1.
  fold script_transport_object. rewrite Hbuilt.
  unfold bind at 1, transact at 1. rewrite Hconn. cbn [negb].
  unfold bind at 1, print at 1. cbn [calls stdout].
  erewrite try_finally_close.
  2: { unfold read_holding_registers, try_except, bind at 1, transact at 1.
       cbn [calls stdout].
       rewrite Hread, Herr.
       unfold bind at 1, print at 1. unfold bind at 1, print at 1.
       unfold bind at 1.
       rewrite (for_enumerate_print_on is_register _
                  (reading_line false "No sensor" "Â°C"))
         by (try exact Hregs; intros i x w' Hx; apply script_loop_body_line, Hx).
       unfold print, after_print. cbn [calls stdout]. reflexivity. }
  cbn [calls stdout]. rewrite <- !app_assoc. cbn [app].
  rewrite Hclose. reflexivity.
Qed.

End ScriptProperties.

(** ** The further statements at work on the scenarios *)

Lemma registers_A : Forall is_register (registers pdu_A).
Proof. repeat constructor; unfold is_register; lia. Qed.

Lemma cmd_read_all_fails_witness :
  cmd_read_all bus_A connected_client empty_world =
    (Ok 1,
     mkWorld []
             [("Error: Failed to read temperatures: "
                 ++ exc_str count_is_keyword_only)%string]).
Proof.
  exact (cmd_read_all_fails bus_A connected_client empty_world).
Defined.

Lemma cmd_read_corrections_fails_witness :
  cmd_read_corrections bus_A connected_client empty_world =
    (Ok 1,
     mkWorld []
             [("Error: Failed to read temperature corrections: "
                 ++ exc_str count_is_keyword_only)%string]).
Proof.
  exact (cmd_read_corrections_fails bus_A connected_client empty_world).
Defined.

Lemma cmd_read_channel_fails_witness :
  cmd_read_channel bus_A connected_client 8 empty_world =
    (Ok 1, mkWorld [] ["Error: Channel must be 0-7"%string]) /\
  cmd_read_channel bus_A connected_client 2 empty_world =
    (Ok 1,
     mkWorld []
             [("Error: Failed to read temperature from channel 2: "
                 ++ exc_str count_is_keyword_only)%string]).
Proof.
  split.
  - destruct (cmd_read_channel_fails bus_A connected_client empty_world 8)
      as (Hout & _).
    apply Hout. right. lia.
  - destruct (cmd_read_channel_fails bus_A connected_client empty_world 2)
      as (_ & Hin).
    exact (Hin ltac:(lia)).
Defined.

Lemma cmd_set_correction_spec_witness :
  cmd_set_correction bus_ack connected_client 3 327.7 empty_world =
    (Ok 1,
     mkWorld [] ["Error: Correction must be between -327.6 and +327.6 °C"%string]) /\
  exists raw,
    encode_temperature 1.5 = Ok raw /\
    cmd_set_correction bus_ack connected_client 3 1.5 empty_world =
      (Ok 0,
       mkWorld [WriteRegister (0x0008 + 3) raw 1]
               ["Successfully set correction for channel 3 to +1.5°C"%string;
                "Note: The correction will be applied to future temperature readings."%string]).
Proof.
  split.
  - destruct (cmd_set_correction_spec bus_ack connected_client empty_world 3 327.7)
      as (_ & Hout & _).
    apply Hout; [lia | reflexivity].
  - destruct (cmd_set_correction_spec bus_ack connected_client empty_world 3 1.5)
      as (_ & _ & Hin).
    destruct (Hin ltac:(lia) eq_refl (transport_object fresh_client) eq_refl)
      as (raw & Henc & Hrun).
    exists raw. split; [exact Henc |].
    apply (Hrun (mkPdu false [15] "WriteSingleRegisterResponse")); reflexivity.
Defined.

Lemma main_validates_before_connecting_witness :
  main bus_A "usage: r4dcb08_cli.py" args_bad_address empty_world =
    (Ok 1, mkWorld [] ["Error: Device address must be between 1 and 247"%string]).
Proof.
  destruct (main_validates_before_connecting bus_A "usage: r4dcb08_cli.py"
              args_bad_address empty_world) as (_ & Haddr).
  apply (Haddr "read-all"%string); [reflexivity | discriminate | right; cbn; lia].
Defined.

Lemma main_connect_failure_witness :
  main bus_refusing "usage: r4dcb08_cli.py" args_read_all empty_world =
    (Ok 1,
     mkWorld [Connect (main_transport_object args_read_all)]
             (connect_failure_lines args_read_all)).
Proof.
  destruct (main_connect_failure bus_refusing "usage: r4dcb08_cli.py"
              "read-all" args_read_all empty_world eq_refl
              ltac:(discriminate) ltac:(cbn; lia)) as (Hfalse & _).
  exact (Hfalse eq_refl eq_refl).
Defined.

Lemma main_closes_the_connection_witness :
  exists made lines,
    snd (main bus_A "usage: r4dcb08_cli.py" args_read_all empty_world) =
      mkWorld (Connect (main_transport_object args_read_all) :: made ++ [Close])
              lines /\
    (List.length made <= 1)%nat.
Proof.
  destruct (main_closes_the_connection bus_A "usage: r4dcb08_cli.py"
              "read-all" args_read_all empty_world eq_refl
              ltac:(discriminate) ltac:(cbn; lia) eq_refl eq_refl)
    as (made & lines & Hw & Hlen & _).
  exists made, lines. split; [exact Hw | exact Hlen].
Defined.

Lemma script_main_listing_witness :
  modbus_py_script.main bus_A empty_world =
    (Ok tt,
     mkWorld [Connect script_transport_object; ReadHoldingRegisters 0 8 1; Close]
             ["Connected to R4DCB08 Temperature Collector"%string;
              (nl ++ "R4DCB08 Temperature Readings:")%string;
              "-----------------------------------"%string;
              "Channel 0: 25.0Â°C"%string; "Channel 1: No sensor"%string;
              "Channel 2: -5.0Â°C"%string; "Channel 3: 0.0Â°C"%string;
              "Channel 4: 0.0Â°C"%string; "Channel 5: 0.0Â°C"%string;
              "Channel 6: 0.0Â°C"%string; "Channel 7: 0.0Â°C"%string;
              (nl ++ "Raw register values: [250, 32768, 65486, 0, 0, 0, 0, 0]")%string;
              (nl ++ "Disconnected from device.")%string]).
Proof.
  exact (script_main_listing bus_A empty_world pdu_A
           eq_refl eq_refl eq_refl eq_refl registers_A eq_refl).
Defined.

Lemma main_read_commands_fail_witness :
  main bus_A "usage: r4dcb08_cli.py" args_read_all empty_world =
    (Ok 1,
     mkWorld [Connect (main_transport_object args_read_all); Close]
             [("Error: Failed to read temperatures: "
                 ++ exc_str count_is_keyword_only)%string]).
Proof.
  destruct (main_read_commands_fail bus_A "usage: r4dcb08_cli.py" args_read_all
              empty_world ltac:(cbn; lia) eq_refl eq_refl) as (Hall & _).
  exact (Hall eq_refl).
Defined.
